(** * MAS coordinator: a shallow embedding of [task/agent.py] and [task/app.py]

    The coordinator receives a chat request, asks an LLM which agent should
    answer, calls that agent's gateway, and streams a final answer that is
    grounded in the agent's message.  The Python code is embedded as follows.

    - A message dict ([dict[str, Any]]) is a [gmap string Value].
    - The pydantic [Message] of the DIAL SDK is a record of its fields; an
      unset optional field is [None].
    - Exceptions are values of [Exception]; a call that may raise returns a
      [Result].
    - Everything the coordinator does to the outside world (progress stages,
      LLM calls, gateway calls, content appended to the choice) is recorded
      as an [Event] in a trace that is threaded through the monad [M].
    - The answers of the outside world (LLM, gateways, JSON parsing) are
      the fields of an [Env] record. *)

From stdpp Require Import gmap strings list fin_maps.

Set Warnings "-register-all".

(** ** Values of the SDK *)

Module Py.

(** [aidial_sdk.chat_completion.Role] *)
Inductive Role := SYSTEM | USER | ASSISTANT | FUNCTION | TOOL.

#[global] Instance Role_eq_dec : EqDecision Role.
Proof. solve_decision. Defined.

(** Structured payloads the coordinator never looks into ([custom_content],
    [tool_calls], [function_call]), in the shape pydantic dumps them. *)
Inductive Json :=
| JNull
| JInt (z : Z)
| JText (s : string)
| JArray (items : list Json)
| JObject (fields : list (string * Json)).

(** What a message dict can hold under a key. *)
Inductive Value :=
| VStr (s : string)
| VRole (r : Role)
| VJson (j : Json).

(** Exceptions that the embedded code raises itself, and [External] for
    whatever a collaborator (LLM transport, gateway, parser) raises. *)
Inductive Exception :=
| ValueError (msg : string)
| IndexError
| KeyError (key : string)
| External (msg : string).

Inductive Result (A : Type) :=
| Ok (a : A)
| Raise (e : Exception).
Arguments Ok {A} a.
Arguments Raise {A} e.

Definition and_then {A B} (r : Result A) (k : A -> Result B) : Result B :=
  match r with
  | Ok a => k a
  | Raise e => Raise e
  end.

(** [str(x)] for an [Optional[str]]: [str(None)] is the text [None]. *)
Definition StrictStr (c : option string) : string :=
  match c with
  | Some s => s
  | None => "None"
  end.

(** Truth value of a [str]: only the empty string is falsy. *)
Definition truthy (s : string) : bool :=
  match s with
  | EmptyString => false
  | String _ _ => true
  end.

(** [xs[0]] *)
Definition first {A} (xs : list A) : Result A :=
  match xs with
  | x :: _ => Ok x
  | [] => Raise IndexError
  end.

(** [xs[-1]] *)
Definition getitem_last {A} (xs : list A) : Result A :=
  match last xs with
  | Some x => Ok x
  | None => Raise IndexError
  end.

(** [d[k]] *)
Definition getitem (d : gmap string Value) (k : string) : Result Value :=
  match d !! k with
  | Some v => Ok v
  | None => Raise (KeyError k)
  end.

End Py.
Export Py.

Definition LF : string := String (Ascii.ascii_of_nat 10) EmptyString.
Definition CR : string := String (Ascii.ascii_of_nat 13) EmptyString.

(** ** Data model *)

(** [aidial_sdk.chat_completion.Message].  The content is text, as in the
    data model of the spec; [custom_content], [tool_calls] and
    [function_call] are nested models.  [other_fields] holds whatever else
    is set on the message (fields of the SDK class that are not named here,
    and extras), each under its own name and as it is dumped. *)
Record Message := {
  role : Role;
  content : option string;
  custom_content : option Json;
  name : option string;
  tool_calls : option Json;
  tool_call_id : option string;
  function_call : option Json;
  other_fields : gmap string Value
}.

(** [aidial_sdk.chat_completion.Request], the parts the coordinator reads. *)
Record Request := {
  messages : list Message;
  api_key : string
}.

(** The runtime value of [CoordinationRequest.agent_name].  The declaration
    of [task.models.AgentName] is not part of the sources; [GPA] and [UMS]
    are the two members the code names and compares by identity, and
    [OtherAgent] is any other object the field may hold. *)
Inductive AgentName :=
| GPA
| UMS
| OtherAgent (tag : string).

(** Modelled from the spec: [task.models.CoordinationRequest] is not part of
    the sources; the spec gives it an agent name and free-text instructions. *)
Record CoordinationRequest := {
  agent_name : AgentName;
  additional_instructions : string
}.

Record MASCoordinator := {
  endpoint : string;
  deployment_name : string;
  ums_agent_endpoint : string
}.

(** ** Message history builder *)

Definition set_field (k : string) (o : option Value)
    (d : gmap string Value) : gmap string Value :=
  match o with
  | Some v => <[k := v]> d
  | None => d
  end.

(** The names of the fields of [Message] that the record spells out. *)
Definition named_fields : list string :=
  ["role"; "content"; "custom_content"; "name"; "tool_calls";
   "tool_call_id"; "function_call"].

(** The dump of the other set fields.  A message has one field per name, so
    nothing in [other_fields] stands under the name of a field that the
    record spells out. *)
Definition other_dump (m : Message) : gmap string Value :=
  foldr delete (other_fields m) named_fields.

(** [m.dict(exclude_none=True)]: one key per field that is not [None]. *)
Definition Message_dict (m : Message) : gmap string Value :=
  set_field "function_call" (VJson <$> function_call m)
    (set_field "tool_call_id" (VStr <$> tool_call_id m)
      (set_field "tool_calls" (VJson <$> tool_calls m)
        (set_field "name" (VStr <$> name m)
          (set_field "custom_content" (VJson <$> custom_content m)
            (set_field "content" (VStr <$> content m)
              (<["role" := VRole (role m)]> (other_dump m))))))).

(** Body of the loop of [__prepare_messages]: the dict appended for [m].
    A pydantic model has no truth value of its own, so [m.custom_content] is
    truthy exactly when the field is set. *)
Definition prepare_entry (m : Message) : gmap string Value :=
  if bool_decide (is_Some (custom_content m)) && bool_decide (role m = USER)
  then <["content" := VStr (StrictStr (content m))]>
         (<["role" := VRole USER]> ∅)
  else Message_dict m.

Definition system_entry (system_prompt : string) : gmap string Value :=
  <["role" := VRole SYSTEM]> (<["content" := VStr system_prompt]> ∅).

(** [MASCoordinator.__prepare_messages] *)
Definition prepare_messages (request : Request) (system_prompt : string)
    : list (gmap string Value) :=
  fold_left (fun acc m => acc ++ [prepare_entry m])
            (messages request)
            [system_entry system_prompt].

(** ** The outside world *)

(** The two agent gateways, with the endpoint each is constructed with. *)
Inductive Gateway :=
| GPAGateway (gpa_endpoint : string)
| UMSAgentGateway (ums_endpoint : string).

(** [AsyncDial(base_url=..., api_key=..., api_version=...)] *)
Record AsyncDial := {
  base_url : string;
  client_api_key : string;
  api_version : string
}.

(** Non-streaming completion: the [message.content] of each choice. *)
Record Completion := {
  completion_choices : list (option string)
}.

(** One streamed chunk: [chunk.choices[i].delta.content]. *)
Record Delta := { delta_content : option string }.
Record ChunkChoice := { delta : option Delta }.
Record Chunk := { chunk_choices : list ChunkChoice }.

(** A streamed response: the chunks it yields, and the exception that ends
    the iteration when the transport breaks before the end of the stream. *)
Record Stream := {
  chunks : list Chunk;
  broken : option Exception
}.

Abbreviation Entry := (gmap string Value).

(** Everything observable outside the coordinator, in the order it happens. *)
Inductive Event :=
| StageOpened (stage : nat) (title : string)
| StageContent (stage : nat) (text : string)
| StageClosed (stage : nat)
| DecisionCall (deployment : string) (prompt : list Entry)
| SynthesisCall (deployment : string) (prompt : list Entry)
| AgentCall (gateway : Gateway) (request : Request) (stage : nat)
            (instructions : string)
| ChoiceContent (text : string)
| ErrorLogged (e : Exception).

(** The answers of the collaborators and the constants of modules that are
    not part of the sources. *)
Record Env := {
  COORDINATION_REQUEST_SYSTEM_PROMPT : string;
  FINAL_RESPONSE_SYSTEM_PROMPT : string;
  DIAL_ENDPOINT : string;
  DEPLOYMENT_NAME : string;
  UMS_AGENT_ENDPOINT : string;
  (* client.chat.completions.create(..., extra_body=response_format) *)
  create_completion : AsyncDial -> string -> list Entry -> Result Completion;
  (* client.chat.completions.create(..., stream=True) *)
  create_stream : AsyncDial -> string -> list Entry -> Result Stream;
  json_loads : option string -> Result Json;
  model_validate : Json -> Result CoordinationRequest;
  model_dump_json : CoordinationRequest -> string;
  (* how an agent name is rendered inside an f-string *)
  agent_name_str : AgentName -> string;
  (* agent.response(choice, request, stage, additional_instructions) *)
  agent_response : Gateway -> Request -> nat -> string -> Result Message;
  (* how a dict value that is not a str is rendered inside an f-string *)
  value_str : Value -> string;
  (* message.json(), which raises when the message cannot be serialised *)
  Message_json : Message -> Result string
}.

(** ** Effects: a trace of events and exceptions *)

Definition Trace := list Event.

Definition M (A : Type) : Type := Trace -> Result A * Trace.

Definition ret {A} (a : A) : M A := fun t => (Ok a, t).

Definition bind {A B} (m : M A) (k : A -> M B) : M B :=
  fun t =>
    match m t with
    | (Ok a, t') => k a t'
    | (Raise e, t') => (Raise e, t')
    end.

Definition lift {A} (r : Result A) : M A := fun t => (r, t).

Definition raise {A} (e : Exception) : M A := lift (Raise e).

Definition emit (ev : Event) : M unit := fun t => (Ok tt, t ++ [ev]).

Notation "'let*' x ':=' m 'in' k" := (bind m (fun x => k))
  (at level 10, x name, m at level 100, k at level 200).
Notation "m1 ';;;' m2" := (bind m1 (fun _ => m2))
  (at level 100, m2 at level 200, right associativity).
Notation "'try' x ':=' r 'in' k" := (and_then r (fun x => k))
  (at level 10, x name, r at level 100, k at level 200).

(** ** Progress stages *)

Definition is_opening (ev : Event) : bool :=
  match ev with
  | StageOpened _ _ => true
  | _ => false
  end.

(** Modelled from the spec: [task.stage_util.StageProcessor] is not part of
    the sources.  The spec describes a reporter that opens a named progress
    segment on the choice and closes it, and whose failures never fail the
    request.  A stage is identified by its index on the choice. *)
Definition open_stage (title : string) : M nat :=
  fun t =>
    let stage := length (List.filter is_opening t) in
    (Ok stage, t ++ [StageOpened stage title]).

(** Modelled from the spec: [StageProcessor.close_stage_safely], see
    [open_stage]. *)
Definition close_stage_safely (stage : nat) : M unit :=
  emit (StageClosed stage).

(** [stage.append_content(text)] *)
Definition append_content (stage : nat) (text : string) : M unit :=
  emit (StageContent stage text).

(** ** The coordinator *)

(** How an f-string renders a dict value: a [str] as it is. *)
Definition format_value (env : Env) (v : Value) : string :=
  match v with
  | VStr s => s
  | _ => value_str env v
  end.

(** The f-string of [__final_response]: the agent's text as context, then
    the text of the last entry as the user request. *)
Definition augmented_prompt (agent_text last_text : string) : string :=
  "## CONTEXT:" +:+ LF +:+ " " +:+ agent_text +:+ LF +:+ " ---" +:+ LF +:+
  " ## USER_REQUEST: " +:+ LF +:+ " " +:+ last_text.

(** [xs[-1][k] = v] *)
Definition setitem_last (xs : list Entry) (k : string) (v : Value)
    : Result (list Entry) :=
  match last xs with
  | Some d => Ok (<[pred (length xs) := <[k := v]> d]> xs)
  | None => Raise IndexError
  end.

(** Steps 1 to 3 of [__final_response]: the message list handed to the
    streaming call. *)
Definition synthesis_messages (env : Env) (request : Request)
    (agent_message : Message) : Result (list Entry) :=
  let msgs := prepare_messages request (FINAL_RESPONSE_SYSTEM_PROMPT env) in
  try last_entry := getitem_last msgs in
  try last_content := getitem last_entry "content" in
  let updated_user_request :=
    augmented_prompt (StrictStr (content agent_message))
                     (format_value env last_content) in
  setitem_last msgs "content" (VStr updated_user_request).

(** Body of the [async for] of [__final_response].  A list is truthy when
    it is not empty, a delta when it is there, a [str] when it is not
    empty. *)
Definition on_chunk (acc : string) (chunk : Chunk) : M string :=
  if bool_decide (chunk_choices chunk <> []) &&
     (0 <? length (chunk_choices chunk))
  then
    let* choice0 := lift (first (chunk_choices chunk)) in
    match delta choice0 with
    | Some d =>
        match delta_content d with
        | Some text =>
            if truthy text
            then emit (ChoiceContent text) ;;; ret (acc +:+ text)
            else ret acc
        | None => ret acc
        end
    | None => ret acc
    end
  else ret acc.

Fixpoint for_each_chunk (cs : list Chunk) (acc : string) : M string :=
  match cs with
  | [] => ret acc
  | c :: rest => let* acc' := on_chunk acc c in for_each_chunk rest acc'
  end.

(** The whole [async for]: every chunk in order, then the exception of a
    stream that breaks. *)
Definition consume (response : Stream) : M string :=
  let* acc := for_each_chunk (chunks response) "" in
  match broken response with
  | None => ret acc
  | Some e => raise e
  end.

(** [Message(role=Role.ASSISTANT, content=StrictStr(content),
    custom_content=agent_message.custom_content)] *)
Definition final_message (acc : string) (agent_message : Message) : Message :=
  {| role := ASSISTANT;
     content := Some (StrictStr (Some acc));
     custom_content := custom_content agent_message;
     name := None;
     tool_calls := None;
     tool_call_id := None;
     function_call := None;
     other_fields := ∅ |}.

(** [MASCoordinator.__final_response] *)
Definition final_response (env : Env) (self : MASCoordinator)
    (client : AsyncDial) (request : Request) (agent_message : Message)
    : M Message :=
  let* msgs := lift (synthesis_messages env request agent_message) in
  emit (SynthesisCall (deployment_name self) msgs) ;;;
  let* response := lift (create_stream env client (deployment_name self) msgs) in
  let* acc := consume response in
  ret (final_message acc agent_message).

(** [agent.response(choice, request, stage, additional_instructions)] *)
Definition response (env : Env) (agent : Gateway) (request : Request)
    (stage : nat) (instructions : string) : M Message :=
  emit (AgentCall agent request stage instructions) ;;;
  lift (agent_response env agent request stage instructions).

(** [MASCoordinator.__handle_coordination_request] *)
Definition handle_coordination_request (env : Env) (self : MASCoordinator)
    (coordination_request : CoordinationRequest) (stage : nat)
    (request : Request) : M Message :=
  let* agent :=
    match agent_name coordination_request with
    | GPA => ret (GPAGateway (endpoint self))
    | UMS => ret (UMSAgentGateway (ums_agent_endpoint self))
    | OtherAgent _ => raise (ValueError "Unknown Agent")
    end in
  response env agent request stage
           (additional_instructions coordination_request).

(** What the decision call of [__prepare_coordination_request] gives back:
    the completion for the built history, its first choice's content loaded
    as JSON and validated as a [CoordinationRequest]. *)
Definition decision (env : Env) (self : MASCoordinator) (client : AsyncDial)
    (request : Request) : Result CoordinationRequest :=
  let msgs :=
    prepare_messages request (COORDINATION_REQUEST_SYSTEM_PROMPT env) in
  try completion :=
    create_completion env client (deployment_name self) msgs in
  try text := first (completion_choices completion) in
  try dict_content := json_loads env text in
  model_validate env dict_content.

(** [MASCoordinator.__prepare_coordination_request] *)
Definition prepare_coordination_request (env : Env) (self : MASCoordinator)
    (client : AsyncDial) (request : Request) : M CoordinationRequest :=
  let msgs :=
    prepare_messages request (COORDINATION_REQUEST_SYSTEM_PROMPT env) in
  emit (DecisionCall (deployment_name self) msgs) ;;;
  lift (decision env self client request).

(** The client [handle_request] creates for the request. *)
Definition dial_client (self : MASCoordinator) (request : Request) : AsyncDial :=
  {| base_url := endpoint self;
     client_api_key := api_key request;
     api_version := "2025-01-01-preview" |}.

(** The content written to the first stage: the decision in a json fence. *)
Definition fenced (prepared_request_json : string) : string :=
  "```json" +:+ LF +:+ CR +:+ prepared_request_json +:+ LF +:+ CR +:+
  "```" +:+ LF +:+ CR.

(** The title of the second stage. *)
Definition call_title (env : Env) (a : AgentName) : string :=
  "Call " +:+ agent_name_str env a +:+ " Agent".

(** [MASCoordinator.handle_request].  Writing a log line has no part in the
    result, but the text of two of the lines is computed with [.json()] on
    a message before it is logged, and that call can raise. *)
Definition handle_request (env : Env) (self : MASCoordinator)
    (request : Request) : M Message :=
  let client := dial_client self request in
  let* stage := open_stage "Coordination Request" in
  let* prepared_request :=
    prepare_coordination_request env self client request in
  let prepared_request_json := model_dump_json env prepared_request in
  append_content stage (fenced prepared_request_json) ;;;
  close_stage_safely stage ;;;
  let* processing_stage :=
    open_stage (call_title env (agent_name prepared_request)) in
  let* agent_message :=
    handle_coordination_request env self prepared_request processing_stage
                                request in
  lift (Message_json env agent_message) ;;;
  close_stage_safely processing_stage ;;;
  let* final_respose :=
    final_response env self client request agent_message in
  lift (Message_json env final_respose) ;;;
  ret final_respose.

(** [MASCoordinatorApplication.chat_completion] of [app.py]: run the
    coordinator on the single choice; log and re-raise what it raises. *)
Definition chat_completion (env : Env) (request : Request) : M unit :=
  fun t =>
    let mas_coordinator :=
      {| endpoint := DIAL_ENDPOINT env;
         deployment_name := DEPLOYMENT_NAME env;
         ums_agent_endpoint := UMS_AGENT_ENDPOINT env |} in
    match handle_request env mas_coordinator request t with
    | (Ok _, t') => (Ok tt, t')
    | (Raise e, t') => (Raise e, t' ++ [ErrorLogged e])
    end.

(** ** Vocabulary of the properties *)

(** An emitted entry mirrors the message it was built from: same role, and
    the message's text as content. *)
Definition mirrors (m : Message) (e : Entry) : Prop :=
  e !! "role" = Some (VRole (role m)) /\
  forall s, content m = Some s -> e !! "content" = Some (VStr s).

(** The value under the key custom_content in each emitted entry. *)
Definition custom_content_key (e : Entry) : option Value :=
  e !! "custom_content".

Definition custom_content_kept (m : Message) : option Value :=
  if bool_decide (role m = USER) then None else VJson <$> custom_content m.

(** The entry of the most recent User message of the conversation. *)
Definition most_recent_user_entry (request : Request) : option Entry :=
  prepare_entry <$> last (filter (fun m => role m = USER) (messages request)).

(** The gateways whose [response] was called, in trace order. *)
Definition gateways_invoked (t : Trace) : list Gateway :=
  omap (fun ev => match ev with
                  | AgentCall g _ _ _ => Some g
                  | _ => None
                  end) t.

(** The gateway that [__handle_coordination_request] builds for a name. *)
Definition selected (self : MASCoordinator) (a : AgentName) : option Gateway :=
  match a with
  | GPA => Some (GPAGateway (endpoint self))
  | UMS => Some (UMSAgentGateway (ums_agent_endpoint self))
  | OtherAgent _ => None
  end.

Definition join (fragments : list string) : string :=
  foldr String.append "" fragments.

(** What a chunk contributes, in the words of the claim: nothing when it
    has no choice, when the first choice has no delta, or when the delta's
    content is absent or empty; otherwise the delta's content. *)
Definition chunk_text (c : Chunk) : option string :=
  match chunk_choices c with
  | [] => None
  | choice0 :: _ =>
      match delta choice0 with
      | None => None
      | Some d =>
          match delta_content d with
          | None => None
          | Some "" => None
          | Some text => Some text
          end
      end
  end.

Definition contributions (cs : list Chunk) : list string := omap chunk_text cs.

(** A chunk that carries one fragment of content. *)
Definition fragment_chunk (text : string) : Chunk :=
  {| chunk_choices := [{| delta := Some {| delta_content := Some text |} |}] |}.

(** Observations on a trace. *)
Definition opened (t : Trace) : list nat :=
  omap (fun ev => match ev with
                  | StageOpened s _ => Some s
                  | _ => None
                  end) t.

Definition closed (t : Trace) : list nat :=
  omap (fun ev => match ev with
                  | StageClosed s => Some s
                  | _ => None
                  end) t.

(** Stages that were opened and never closed. *)
Definition unclosed (t : Trace) : list nat :=
  filter (fun s => s ∉ closed t) (opened t).

Definition synthesis_calls (t : Trace) : list (list Entry) :=
  omap (fun ev => match ev with
                  | SynthesisCall _ prompt => Some prompt
                  | _ => None
                  end) t.

(** Whether some gateway call of the trace returned a message that could
    be serialised for the log line that follows the call. *)
Definition agent_reported (env : Env) (t : Trace) : bool :=
  existsb (fun ev => match ev with
                     | AgentCall g request stage instructions =>
                         match agent_response env g request stage
                                              instructions with
                         | Ok agent_message =>
                             match Message_json env agent_message with
                             | Ok _ => true
                             | Raise _ => false
                             end
                         | Raise _ => false
                         end
                     | _ => false
                     end) t.

(** What [handle_request] makes of the result of the synthesis phase: the
    message is serialised for the last log line before it is returned. *)
Definition logged (env : Env) (r : Result Message) : Result Message :=
  try final := r in
  try _ := Message_json env final in
  Ok final.

Definition stage_count (t : Trace) : nat := length (List.filter is_opening t).

(** The events of the decision phase, of the narration between the phases,
    and of the agent call. *)
Definition deciding (env : Env) (self : MASCoordinator) (request : Request)
    (n : nat) : Trace :=
  [StageOpened n "Coordination Request";
   DecisionCall (deployment_name self)
     (prepare_messages request (COORDINATION_REQUEST_SYSTEM_PROMPT env))].

Definition narrated (env : Env) (p : CoordinationRequest) (n : nat) : Trace :=
  [StageContent n (fenced (model_dump_json env p));
   StageClosed n;
   StageOpened (S n) (call_title env (agent_name p))].

Definition calling (g : Gateway) (request : Request)
    (p : CoordinationRequest) (n : nat) : Trace :=
  [AgentCall g request (S n) (additional_instructions p)].

(** The synthesis phase only issues the streaming call and appends content
    to the choice. *)
Definition synthesis_event (ev : Event) : Prop :=
  match ev with
  | SynthesisCall _ _ | ChoiceContent _ => True
  | _ => False
  end.

(** Whether [__prepare_messages] takes its first branch for [m]. *)
Definition stripped (m : Message) : bool :=
  bool_decide (is_Some (custom_content m)) && bool_decide (role m = USER).

(** The conversation ends with a message that is passed through and has no
    content. *)
Definition ends_without_text (request : Request) : bool :=
  match last (messages request) with
  | Some m => negb (stripped m) && bool_decide (content m = None)
  | None => false
  end.

(** A chunk cut down to its first choice. *)
Definition first_choice_only (c : Chunk) : Chunk :=
  {| chunk_choices := take 1 (chunk_choices c) |}.

(** The outbound calls of a trace, by kind. *)
Inductive Call := Decision | Agent | Synthesis.

Definition calls (t : Trace) : list Call :=
  omap (fun ev => match ev with
                  | DecisionCall _ _ => Some Decision
                  | AgentCall _ _ _ _ => Some Agent
                  | SynthesisCall _ _ => Some Synthesis
                  | _ => None
                  end) t.

(** What was appended to the choice, and what was written to stages. *)
Definition choice_contents (t : Trace) : list string :=
  omap (fun ev => match ev with
                  | ChoiceContent text => Some text
                  | _ => None
                  end) t.

Definition stage_contents (t : Trace) : list (nat * string) :=
  omap (fun ev => match ev with
                  | StageContent s text => Some (s, text)
                  | _ => None
                  end) t.

(** Stages used one at a time: a stage is opened only while none is open,
    and only the open stage is closed.  [open_now] is the stage that is
    open when the trace starts. *)
Fixpoint sequential (open_now : option nat) (t : Trace) : bool :=
  match t with
  | [] => true
  | StageOpened s _ :: rest =>
      match open_now with
      | None => sequential (Some s) rest
      | Some _ => false
      end
  | StageClosed s :: rest =>
      bool_decide (open_now = Some s) && sequential None rest
  | StageContent s _ :: rest =>
      bool_decide (open_now = Some s) && sequential open_now rest
  | _ :: rest => sequential open_now rest
  end.

(** The result and the events of the synthesis phase, as a function of the
    collaborators' answers. *)
Definition synthesis_summary (env : Env) (self : MASCoordinator)
    (client : AsyncDial) (request : Request) (agent_message : Message)
    : Result Message * Trace :=
  match synthesis_messages env request agent_message with
  | Raise e => (Raise e, [])
  | Ok msgs =>
      let call := SynthesisCall (deployment_name self) msgs in
      match create_stream env client (deployment_name self) msgs with
      | Raise e => (Raise e, [call])
      | Ok response =>
          (match broken response with
           | None =>
               Ok (final_message (join (contributions (chunks response)))
                                 agent_message)
           | Some e => Raise e
           end,
           call :: (ChoiceContent <$> contributions (chunks response)))
      end
  end.

(** The result and the events of a whole request whose first stage gets the
    index [n]. *)
Definition request_summary (env : Env) (self : MASCoordinator)
    (request : Request) (n : nat) : Result Message * Trace :=
  match decision env self (dial_client self request) request with
  | Raise e => (Raise e, deciding env self request n)
  | Ok p =>
      match selected self (agent_name p) with
      | None =>
          (Raise (ValueError "Unknown Agent"),
           deciding env self request n ++ narrated env p n)
      | Some g =>
          match agent_response env g request (S n)
                               (additional_instructions p) with
          | Raise e =>
              (Raise e,
               deciding env self request n ++ narrated env p n
                 ++ calling g request p n)
          | Ok agent_message =>
              match Message_json env agent_message with
              | Raise e =>
                  (Raise e,
                   deciding env self request n ++ narrated env p n
                     ++ calling g request p n)
              | Ok _ =>
                  let (r, synth) :=
                    synthesis_summary env self (dial_client self request)
                                      request agent_message in
                  (logged env r,
                   deciding env self request n ++ narrated env p n
                     ++ calling g request p n ++ [StageClosed (S n)]
                     ++ synth)
              end
          end
      end
  end.

(** ** A scripted outside world, for running the coordinator on examples *)

Definition plain (r : Role) (text : string) : Message :=
  {| role := r; content := Some text; custom_content := None; name := None;
     tool_calls := None; tool_call_id := None; function_call := None;
     other_fields := ∅ |}.

Definition with_payload (r : Role) (text : string) (payload : Json) : Message :=
  {| role := r; content := Some text; custom_content := Some payload;
     name := None; tool_calls := None; tool_call_id := None;
     function_call := None; other_fields := ∅ |}.

Definition id_42 : Json := JObject [("id", JInt 42)].

Definition conversation (ms : list Message) : Request :=
  {| messages := ms; api_key := "key" |}.

Definition scripted (verdict : Result CoordinationRequest)
    (answer : Gateway -> Result Message) (streamed : Result Stream) : Env :=
  {| COORDINATION_REQUEST_SYSTEM_PROMPT := "Pick the agent";
     FINAL_RESPONSE_SYSTEM_PROMPT := "Answer the user";
     DIAL_ENDPOINT := "http://localhost:8080";
     DEPLOYMENT_NAME := "gpt-4o";
     UMS_AGENT_ENDPOINT := "http://localhost:8042";
     create_completion := fun _ _ _ => Ok {| completion_choices := [Some "{}"] |};
     create_stream := fun _ _ _ => streamed;
     json_loads := fun _ => Ok (JObject []);
     model_validate := fun _ => verdict;
     model_dump_json := fun _ => "{}";
     agent_name_str := fun a => match a with
                                | GPA => "GPA"
                                | UMS => "UMS"
                                | OtherAgent tag => tag
                                end;
     agent_response := fun g _ _ _ => answer g;
     value_str := fun _ => "";
     Message_json := fun _ => Ok "{}" |}.

Definition configured (env : Env) : MASCoordinator :=
  {| endpoint := DIAL_ENDPOINT env;
     deployment_name := DEPLOYMENT_NAME env;
     ums_agent_endpoint := UMS_AGENT_ENDPOINT env |}.

Definition to_ums : CoordinationRequest :=
  {| agent_name := UMS; additional_instructions := "create account for Jane" |}.

Definition account_created : Message :=
  with_payload ASSISTANT "Account created" id_42.

Definition jane : Request :=
  conversation [plain USER "Create a new account for Jane"].

Definition hello_stream : Stream :=
  {| chunks := fragment_chunk <$> ["Hel"; "lo"]; broken := None |}.

Definition happy_env : Env :=
  scripted (Ok to_ums) (fun _ => Ok account_created) (Ok hello_stream).

(** A stream with every kind of chunk the loop skips. *)
Definition patchy : list Chunk :=
  [ {| chunk_choices := [] |};
    fragment_chunk "Hel";
    {| chunk_choices := [{| delta := None |}] |};
    {| chunk_choices := [{| delta := Some {| delta_content := None |} |}] |};
    fragment_chunk "";
    fragment_chunk "lo" ].

Definition patchy_env : Env :=
  scripted (Ok to_ums) (fun _ => Ok account_created)
           (Ok {| chunks := patchy; broken := None |}).

Definition ums_down : Exception := External "UMS agent unreachable".

Definition schema_mismatch : Exception := External "schema mismatch".

Definition ums_down_env : Env :=
  scripted (Ok to_ums) (fun _ => Raise ums_down) (Ok hello_stream).

(** A User message with attachments and no text. *)
Definition attachment_only : Message :=
  {| role := USER; content := None; custom_content := Some id_42;
     name := None; tool_calls := None; tool_call_id := None;
     function_call := None; other_fields := ∅ |}.

Definition silent_agent : Message :=
  {| role := ASSISTANT; content := None; custom_content := None;
     name := None; tool_calls := None; tool_call_id := None;
     function_call := None; other_fields := ∅ |}.

(** A world whose decision call returns a completion without choices. *)
Definition no_choice_env : Env :=
  {| COORDINATION_REQUEST_SYSTEM_PROMPT := "Pick the agent";
     FINAL_RESPONSE_SYSTEM_PROMPT := "Answer the user";
     DIAL_ENDPOINT := "http://localhost:8080";
     DEPLOYMENT_NAME := "gpt-4o";
     UMS_AGENT_ENDPOINT := "http://localhost:8042";
     create_completion := fun _ _ _ => Ok {| completion_choices := [] |};
     create_stream := fun _ _ _ => Ok hello_stream;
     json_loads := fun _ => Ok (JObject []);
     model_validate := fun _ => Ok to_ums;
     model_dump_json := fun _ => "{}";
     agent_name_str := fun _ => "UMS";
     agent_response := fun _ _ _ _ => Ok account_created;
     value_str := fun _ => "";
     Message_json := fun _ => Ok "{}" |}.

(** A world in which no message can be serialised. *)
Definition unloggable : Exception := External "not JSON serializable".

Definition unloggable_env : Env :=
  {| COORDINATION_REQUEST_SYSTEM_PROMPT := "Pick the agent";
     FINAL_RESPONSE_SYSTEM_PROMPT := "Answer the user";
     DIAL_ENDPOINT := "http://localhost:8080";
     DEPLOYMENT_NAME := "gpt-4o";
     UMS_AGENT_ENDPOINT := "http://localhost:8042";
     create_completion := fun _ _ _ => Ok {| completion_choices := [Some "{}"] |};
     create_stream := fun _ _ _ => Ok hello_stream;
     json_loads := fun _ => Ok (JObject []);
     model_validate := fun _ => Ok to_ums;
     model_dump_json := fun _ => "{}";
     agent_name_str := fun _ => "UMS";
     agent_response := fun _ _ _ _ => Ok account_created;
     value_str := fun _ => "";
     Message_json := fun _ => Raise unloggable |}.

Definition cut_off : Exception := External "connection reset".

Definition cut_off_env : Env :=
  scripted (Ok to_ums) (fun _ => Ok account_created)
           (Ok {| chunks := [fragment_chunk "Hel"]; broken := Some cut_off |}).

(** The events of the request [jane] in the world [happy_env]. *)
Definition happy_trace : Trace :=
  deciding happy_env (configured happy_env) jane 0
  ++ narrated happy_env to_ums 0
  ++ calling (UMSAgentGateway "http://localhost:8042") jane to_ums 0
  ++ [StageClosed 1]
  ++ SynthesisCall "gpt-4o"
       [system_entry "Answer the user";
        <["content" :=
            VStr (augmented_prompt "Account created"
                    "Create a new account for Jane")]>
          (prepare_entry (plain USER "Create a new account for Jane"))]
     :: (ChoiceContent <$> ["Hel"; "lo"]).

(** ** The message history builder: structure of the output *)

Lemma append_each {A B} (f : A -> B) (l : list A) (init : list B) :
  fold_left (fun acc m => acc ++ [f m]) l init = init ++ (f <$> l).
Proof.
  revert init. induction l as [|x l IH]; intros init; simpl.
  - by rewrite app_nil_r.
  - rewrite IH. by rewrite <- app_assoc.
Qed.

Lemma prepare_messages_cons request system_prompt :
  prepare_messages request system_prompt
  = system_entry system_prompt :: (prepare_entry <$> messages request).
Proof. unfold prepare_messages. by rewrite append_each. Qed.

Lemma prepare_messages_lookup request system_prompt i :
  prepare_messages request system_prompt !! S i
  = prepare_entry <$> (messages request !! i).
Proof. rewrite prepare_messages_cons. simpl. apply list_lookup_fmap. Qed.

Lemma set_field_lookup_ne k k' o (d : gmap string Value) :
  k <> k' -> set_field k o d !! k' = d !! k'.
Proof. intros Hne. destruct o; simpl; [by rewrite lookup_insert_ne | done]. Qed.

Lemma set_field_lookup_eq k o (d : gmap string Value) :
  d !! k = None -> set_field k o d !! k = o.
Proof. intros Hd. destruct o; simpl; [by rewrite lookup_insert_eq | done]. Qed.

Lemma other_dump_named m k : k ∈ named_fields -> other_dump m !! k = None.
Proof.
  unfold other_dump, named_fields. intros Hk. cbn [foldr].
  rewrite !elem_of_cons, elem_of_nil in Hk.
  destruct Hk as [->|[->|[->|[->|[->|[->|[->|[]]]]]]]];
    rewrite ?lookup_delete_ne by done; apply lookup_delete_eq.
Qed.

Lemma Message_dict_role m : Message_dict m !! "role" = Some (VRole (role m)).
Proof.
  unfold Message_dict.
  rewrite !set_field_lookup_ne by done. by rewrite lookup_insert_eq.
Qed.

Lemma Message_dict_content m : Message_dict m !! "content" = VStr <$> content m.
Proof.
  unfold Message_dict.
  rewrite !set_field_lookup_ne by done.
  rewrite set_field_lookup_eq; [done|]. rewrite lookup_insert_ne by done.
  apply other_dump_named. unfold named_fields. rewrite !elem_of_cons. tauto.
Qed.

Lemma Message_dict_custom_content m :
  Message_dict m !! "custom_content" = VJson <$> custom_content m.
Proof.
  unfold Message_dict.
  rewrite !set_field_lookup_ne by done.
  rewrite set_field_lookup_eq; [done|].
  rewrite set_field_lookup_ne by done. rewrite lookup_insert_ne by done.
  apply other_dump_named. unfold named_fields. rewrite !elem_of_cons. tauto.
Qed.

Lemma prepare_entry_stripped m :
  is_Some (custom_content m) -> role m = USER ->
  prepare_entry m
  = <["content" := VStr (StrictStr (content m))]> (<["role" := VRole USER]> ∅).
Proof.
  intros Hc Hr. unfold prepare_entry.
  rewrite (bool_decide_eq_true_2 _ Hc), (bool_decide_eq_true_2 _ Hr). done.
Qed.

Lemma prepare_entry_role m : prepare_entry m !! "role" = Some (VRole (role m)).
Proof.
  unfold prepare_entry.
  destruct (bool_decide (is_Some (custom_content m))); simpl;
    [case_bool_decide as Hr|]; try apply Message_dict_role.
  rewrite Hr. by rewrite lookup_insert_ne, lookup_insert_eq.
Qed.

Lemma prepare_entry_text m s :
  content m = Some s -> prepare_entry m !! "content" = Some (VStr s).
Proof.
  intros Hs. unfold prepare_entry.
  destruct (bool_decide (is_Some (custom_content m)) &&
            bool_decide (role m = USER)).
  - rewrite lookup_insert_eq. by rewrite Hs.
  - rewrite Message_dict_content. by rewrite Hs.
Qed.

Lemma prepare_entry_mirrors m : mirrors m (prepare_entry m).
Proof. split; [apply prepare_entry_role | apply prepare_entry_text]. Qed.

(** C2: the builder returns one entry more than there are inbound messages;
    the first entry is the system prompt with role System, and the entries
    after it are those of the inbound messages, in their order. *)
Theorem prepare_messages_shape (request : Request) (system_prompt : string) :
  length (prepare_messages request system_prompt)
    = S (length (messages request)) /\
  exists e rest,
    prepare_messages request system_prompt = e :: rest /\
    e !! "role" = Some (VRole SYSTEM) /\
    e !! "content" = Some (VStr system_prompt) /\
    rest = (prepare_entry <$> messages request) /\
    Forall2 mirrors (messages request) rest.
Proof.
  rewrite prepare_messages_cons. split.
  - simpl. by rewrite length_fmap.
  - exists (system_entry system_prompt), (prepare_entry <$> messages request).
    split; [done|]. split; [|split; [|split; [done|]]].
    + unfold system_entry. by rewrite lookup_insert_eq.
    + unfold system_entry. by rewrite lookup_insert_ne, lookup_insert_eq.
    + apply Forall2_fmap_r, Forall_Forall2_diag, Forall_forall.
      intros m _. apply prepare_entry_mirrors.
Qed.

(** C3: a User message that carries custom content is emitted as a dict with
    exactly the keys role and content: role User and the message's text;
    there is no custom_content key in it. *)
Theorem user_custom_content_dropped (request : Request) (system_prompt : string)
    (i : nat) (m : Message) :
  messages request !! i = Some m ->
  role m = USER ->
  is_Some (custom_content m) ->
  exists e,
    prepare_messages request system_prompt !! S i = Some e /\
    dom e = ({["role"; "content"]} : gset string) /\
    e !! "role" = Some (VRole USER) /\
    e !! "content" = Some (VStr (StrictStr (content m))) /\
    (forall s, content m = Some s -> e !! "content" = Some (VStr s)) /\
    e !! "custom_content" = None.
Proof.
  intros Hi Hr Hc. exists (prepare_entry m).
  rewrite prepare_messages_lookup, Hi. split; [done|].
  split; [|split; [|split; [|split]]].
  - rewrite (prepare_entry_stripped m Hc Hr).
    rewrite !dom_insert_L, dom_empty_L. set_solver.
  - rewrite prepare_entry_role. by rewrite Hr.
  - rewrite (prepare_entry_stripped m Hc Hr). by rewrite lookup_insert_eq.
  - apply prepare_entry_text.
  - rewrite (prepare_entry_stripped m Hc Hr).
    by rewrite !lookup_insert_ne, lookup_empty.
Qed.

Lemma user_custom_content_dropped_witness :
  let m := with_payload USER "show my orders" id_42 in
  exists e,
    prepare_messages (conversation [m]) "You are a helper" !! 1 = Some e /\
    dom e = ({["role"; "content"]} : gset string) /\
    e !! "role" = Some (VRole USER) /\
    e !! "content" = Some (VStr (StrictStr (content m))) /\
    (forall s, content m = Some s -> e !! "content" = Some (VStr s)) /\
    e !! "custom_content" = None.
Proof.
  intros m.
  apply (user_custom_content_dropped (conversation [m]) "You are a helper" 0 m).
  - reflexivity.
  - reflexivity.
  - exists id_42. reflexivity.
Defined.

Lemma prepare_entry_custom_content m :
  custom_content_key (prepare_entry m) = custom_content_kept m.
Proof.
  unfold custom_content_key, custom_content_kept.
  destruct (decide (role m = USER)) as [Hr|Hr].
  - rewrite (bool_decide_eq_true_2 _ Hr).
    destruct (custom_content m) as [payload|] eqn:Hc.
    + rewrite prepare_entry_stripped by (by rewrite ?Hc).
      by rewrite !lookup_insert_ne, lookup_empty.
    + unfold prepare_entry. rewrite Hc. simpl.
      rewrite Message_dict_custom_content. by rewrite Hc.
  - rewrite (bool_decide_eq_false_2 _ Hr).
    unfold prepare_entry. rewrite (bool_decide_eq_false_2 _ Hr), andb_false_r.
    apply Message_dict_custom_content.
Qed.

(** The claim of C4 as stated fails: an Assistant message keeps its custom
    content in the entry that is built for it. *)
Lemma assistant_custom_content_kept :
  let m := with_payload ASSISTANT "Account created" id_42 in
  let request := conversation [plain USER "hi"; m; plain USER "thanks"] in
  messages request !! 1 = Some m /\
  custom_content m = Some id_42 /\
  exists e,
    prepare_messages request "You are a helper" !! 2 = Some e /\
    e !! "custom_content" = Some (VJson id_42).
Proof.
  intros m request. split; [done|]. split; [done|].
  exists (prepare_entry m). split.
  - by rewrite prepare_messages_lookup.
  - apply (prepare_entry_custom_content m).
Qed.

(** C4 (amended): custom content is removed from User messages only.  The
    system entry has no custom_content key, the entry of a User message has
    none, and the entry of a message of any other role carries the
    message's custom content whenever the message has one. *)
Theorem custom_content_per_entry (request : Request) (system_prompt : string) :
  custom_content_key <$> prepare_messages request system_prompt
  = None :: (custom_content_kept <$> messages request).
Proof.
  rewrite prepare_messages_cons. rewrite fmap_cons. f_equal.
  rewrite <- list_fmap_compose. apply list_fmap_ext.
  intros i m _. apply prepare_entry_custom_content.
Qed.

(** ** The last entry of the history *)

Lemma prepare_messages_last request system_prompt :
  last (prepare_messages request system_prompt)
  = Some (default (system_entry system_prompt)
                  (prepare_entry <$> last (messages request))).
Proof.
  rewrite prepare_messages_cons.
  destruct (messages request) as [|m ms _] using rev_ind; [done|].
  rewrite fmap_app. cbn [fmap list_fmap].
  by rewrite app_comm_cons, !last_snoc.
Qed.

(** The claim of C9 as stated fails: when the conversation ends with an
    Assistant message, the last entry is that message's, not the entry of
    the most recent User message. *)
Lemma last_entry_not_user :
  let request := conversation [plain USER "hi"; plain ASSISTANT "hello"] in
  most_recent_user_entry request = Some (prepare_entry (plain USER "hi")) /\
  (last (prepare_messages request "You are a helper")
     ≫= (fun e => e !! "role")) = Some (VRole ASSISTANT) /\
  last (prepare_messages request "You are a helper")
    <> most_recent_user_entry request.
Proof.
  intros request.
  assert (Hlast : last (prepare_messages request "You are a helper")
                  = Some (prepare_entry (plain ASSISTANT "hello")))
    by (by rewrite prepare_messages_last).
  assert (Huser : most_recent_user_entry request
                  = Some (prepare_entry (plain USER "hi"))) by done.
  split; [done|]. split.
  - rewrite Hlast. exact (prepare_entry_role (plain ASSISTANT "hello")).
  - rewrite Hlast, Huser. intros Heq. apply (inj Some) in Heq.
    pose proof (f_equal (fun e : Entry => e !! "role") Heq) as Hrole.
    cbv beta in Hrole. rewrite !prepare_entry_role in Hrole. discriminate.
Qed.

(** C9 (amended): when the conversation ends with a User message, the last
    element of the builder's output is the entry of that message, which is
    the most recent user-originated entry. *)
Theorem last_entry_is_last_user_message (request : Request)
    (system_prompt : string) (m : Message) :
  last (messages request) = Some m ->
  role m = USER ->
  last (prepare_messages request system_prompt) = Some (prepare_entry m) /\
  most_recent_user_entry request = Some (prepare_entry m) /\
  prepare_entry m !! "role" = Some (VRole USER).
Proof.
  intros Hlast Hr. split; [|split].
  - rewrite prepare_messages_last. by rewrite Hlast.
  - unfold most_recent_user_entry.
    apply last_Some in Hlast as [ms ->].
    rewrite filter_app, filter_cons_True, filter_nil by done.
    by rewrite last_snoc.
  - rewrite prepare_entry_role. by rewrite Hr.
Qed.

Lemma last_entry_is_last_user_message_witness :
  let request := conversation [plain USER "hi"; plain ASSISTANT "hello";
                               plain USER "list the users"] in
  let m := plain USER "list the users" in
  last (prepare_messages request "You are a helper") = Some (prepare_entry m) /\
  most_recent_user_entry request = Some (prepare_entry m) /\
  prepare_entry m !! "role" = Some (VRole USER).
Proof.
  intros request m.
  apply (last_entry_is_last_user_message request "You are a helper" m).
  - reflexivity.
  - reflexivity.
Defined.

(** ** Dispatch *)

Lemma dispatch_run env self cr stage request t :
  handle_coordination_request env self cr stage request t
  = match selected self (agent_name cr) with
    | Some g =>
        (agent_response env g request stage (additional_instructions cr),
         t ++ [AgentCall g request stage (additional_instructions cr)])
    | None => (Raise (ValueError "Unknown Agent"), t)
    end.
Proof.
  unfold handle_coordination_request.
  destruct (agent_name cr); reflexivity.
Qed.

(** C1: dispatch goes by the agent name alone.  For GPA the only thing that
    happens is one call of the general-purpose gateway, for UMS one call of
    the UMS gateway, and the gateway's answer is the result; for any other
    value the result is the error Unknown Agent and nothing was called. *)
Theorem dispatch_by_agent_name (env : Env) (self : MASCoordinator)
    (cr : CoordinationRequest) (stage : nat) (request : Request) (t : Trace) :
  exists r new,
    handle_coordination_request env self cr stage request t = (r, t ++ new) /\
    match agent_name cr with
    | GPA =>
        let g := GPAGateway (endpoint self) in
        new = [AgentCall g request stage (additional_instructions cr)] /\
        gateways_invoked new = [g] /\
        r = agent_response env g request stage (additional_instructions cr)
    | UMS =>
        let g := UMSAgentGateway (ums_agent_endpoint self) in
        new = [AgentCall g request stage (additional_instructions cr)] /\
        gateways_invoked new = [g] /\
        r = agent_response env g request stage (additional_instructions cr)
    | OtherAgent _ =>
        new = [] /\ gateways_invoked new = [] /\
        r = Raise (ValueError "Unknown Agent")
    end.
Proof.
  rewrite dispatch_run.
  destruct (agent_name cr); simpl; eexists _, _;
    (split; [reflexivity || (by rewrite app_nil_r) | done]).
Qed.

(** ** Streaming *)

Lemma append_empty_r (s : string) : s +:+ "" = s.
Proof.
  induction s as [|a s IH]; [done|].
  change (String a (s +:+ "") = String a s). by rewrite IH.
Qed.

Lemma append_assoc (a b c : string) : (a +:+ b) +:+ c = a +:+ (b +:+ c).
Proof.
  induction a as [|x a IH]; [done|].
  change (String x ((a +:+ b) +:+ c) = String x (a +:+ (b +:+ c))).
  by rewrite IH.
Qed.

Lemma on_chunk_run acc c t :
  on_chunk acc c t
  = (Ok (acc +:+ default "" (chunk_text c)),
     t ++ (ChoiceContent <$> option_list (chunk_text c))).
Proof.
  unfold on_chunk, chunk_text, bind, lift, ret, emit.
  destruct (chunk_choices c) as [|choice0 rest]; cbn -[app].
  - by rewrite append_empty_r, app_nil_r.
  - destruct (delta choice0) as [d|]; cbn -[app];
      [destruct (delta_content d) as [[|a text]|]; cbn -[app]|];
      by rewrite ?append_empty_r, ?app_nil_r.
Qed.

Lemma for_each_chunk_run cs acc t :
  for_each_chunk cs acc t
  = (Ok (acc +:+ join (contributions cs)),
     t ++ (ChoiceContent <$> contributions cs)).
Proof.
  revert acc t. induction cs as [|c cs IH]; intros acc t.
  - cbn -[app]. by rewrite append_empty_r, app_nil_r.
  - cbn [for_each_chunk]. unfold bind. rewrite on_chunk_run, IH.
    unfold contributions. cbn [omap list_omap].
    destruct (chunk_text c) as [text|]; cbn -[app].
    + by rewrite append_assoc, <- app_assoc.
    + by rewrite append_empty_r, app_nil_r.
Qed.

Lemma consume_run response t :
  consume response t
  = (match broken response with
     | None => Ok (join (contributions (chunks response)))
     | Some e => Raise e
     end,
     t ++ (ChoiceContent <$> contributions (chunks response))).
Proof.
  unfold consume, bind. rewrite for_each_chunk_run.
  by destruct (broken response).
Qed.

Lemma contributions_fragments (fragments : list string) :
  contributions (fragment_chunk <$> fragments) = List.filter truthy fragments.
Proof.
  unfold contributions.
  induction fragments as [|f fs IH]; [done|].
  rewrite fmap_cons. cbn [omap list_omap List.filter]. rewrite IH.
  by destruct f.
Qed.

Lemma join_truthy (fragments : list string) :
  join (List.filter truthy fragments) = join fragments.
Proof.
  induction fragments as [|f fs IH]; [done|].
  cbn [List.filter]. destruct f as [|a f]; cbn [truthy join foldr].
  - exact IH.
  - unfold join in IH. by rewrite IH.
Qed.

Lemma contributions_nonempty (cs : list Chunk) :
  Forall (fun text => text <> "") (contributions cs).
Proof.
  unfold contributions. induction cs as [|c cs IH]; [constructor|].
  cbn [omap list_omap]. destruct (chunk_text c) as [text|] eqn:Hc; [|done].
  constructor; [|done].
  unfold chunk_text in Hc. intros ->.
  destruct (chunk_choices c) as [|c0 ?]; [done|].
  destruct (delta c0) as [d|]; [|done].
  by destruct (delta_content d) as [[|??]|].
Qed.

Example hello : join ["Hel"; "lo"] = "Hello".
Proof. reflexivity. Qed.

Example patchy_says_hello :
  contributions patchy = ["Hel"; "lo"] /\ join (contributions patchy) = "Hello".
Proof. split; reflexivity. Qed.

Lemma setitem_last_snoc (before : list Entry) (e : Entry) k v :
  setitem_last (before ++ [e]) k v = Ok (before ++ [<[k := v]> e]).
Proof.
  unfold setitem_last. rewrite last_snoc, length_app. simpl.
  replace (pred (length before + 1)) with (length before + 0) by lia.
  by rewrite insert_app_r.
Qed.

(** ** Synthesis *)

Section Synthesis.

Context (env : Env) (self : MASCoordinator) (client : AsyncDial)
        (request : Request) (agent_message : Message).

Lemma final_response_run t :
  final_response env self client request agent_message t
  = match synthesis_messages env request agent_message with
    | Raise e => (Raise e, t)
    | Ok msgs =>
        let call := SynthesisCall (deployment_name self) msgs in
        match create_stream env client (deployment_name self) msgs with
        | Raise e => (Raise e, t ++ [call])
        | Ok response =>
            (match broken response with
             | None =>
                 Ok (final_message (join (contributions (chunks response)))
                                   agent_message)
             | Some e => Raise e
             end,
             t ++ call :: (ChoiceContent <$> contributions (chunks response)))
        end
    end.
Proof.
  unfold final_response, bind, lift, emit.
  destruct (synthesis_messages env request agent_message) as [msgs|e]; [|done].
  destruct (create_stream env client (deployment_name self) msgs)
    as [response|e]; [|done].
  rewrite consume_run, <- app_assoc. simpl.
  by destruct (broken response).
Qed.

Lemma final_response_events t :
  exists r synth,
    final_response env self client request agent_message t = (r, t ++ synth) /\
    Forall synthesis_event synth.
Proof.
  rewrite final_response_run.
  destruct (synthesis_messages env request agent_message) as [msgs|e].
  - cbv zeta.
    destruct (create_stream env client (deployment_name self) msgs) as [s|e].
    + eexists _, _. split; [reflexivity|].
      constructor; [done|]. apply Forall_fmap, Forall_forall. done.
    + eexists _, _. split; [reflexivity|]. by repeat constructor.
  - exists (Raise e), []. by rewrite app_nil_r.
Qed.

Lemma synthesis_messages_snoc before e v :
  prepare_messages request (FINAL_RESPONSE_SYSTEM_PROMPT env) = before ++ [e] ->
  e !! "content" = Some v ->
  synthesis_messages env request agent_message
  = Ok (before ++
        [<["content" := VStr (augmented_prompt
                                (StrictStr (content agent_message))
                                (format_value env v))]> e]).
Proof.
  intros Hmsgs Hv. unfold synthesis_messages. rewrite Hmsgs.
  unfold getitem_last. rewrite last_snoc. simpl.
  unfold getitem. rewrite Hv. simpl. apply setitem_last_snoc.
Qed.

(** C5: when the last built entry has content Q and the agent's message has
    content A, the list sent to the streaming call is the built list with
    only the content of its last entry replaced, and the new content is the
    CONTEXT heading, A, a separator, the USER_REQUEST heading, Q, in that
    order. *)
Theorem synthesis_prompt_rewritten (A Q : string) (e : Entry) (t : Trace) :
  content agent_message = Some A ->
  last (prepare_messages request (FINAL_RESPONSE_SYSTEM_PROMPT env)) = Some e ->
  e !! "content" = Some (VStr Q) ->
  exists before prompt,
    prepare_messages request (FINAL_RESPONSE_SYSTEM_PROMPT env)
      = before ++ [e] /\
    prompt = ("## CONTEXT:" +:+ LF +:+ " ") +:+ A +:+
             (LF +:+ " ---" +:+ LF +:+ " ## USER_REQUEST: " +:+ LF +:+ " ")
             +:+ Q /\
    synthesis_messages env request agent_message
      = Ok (before ++ [<["content" := VStr prompt]> e]) /\
    exists r rest,
      final_response env self client request agent_message t
      = (r, t ++ SynthesisCall (deployment_name self)
                   (before ++ [<["content" := VStr prompt]> e]) :: rest).
Proof.
  intros HA Hlast HQ. apply last_Some in Hlast as [before Hmsgs].
  exists before, (augmented_prompt A Q).
  assert (Hsyn : synthesis_messages env request agent_message
                 = Ok (before ++
                       [<["content" := VStr (augmented_prompt A Q)]> e])).
  { rewrite (synthesis_messages_snoc before e (VStr Q) Hmsgs HQ).
    by rewrite HA. }
  split; [done|]. split; [|split; [done|]].
  - unfold augmented_prompt. by rewrite !append_assoc.
  - rewrite final_response_run, Hsyn. cbv zeta.
    destruct (create_stream env client (deployment_name self) _); eauto.
Qed.

(** C6: when the streaming call yields the given fragments, the returned
    message has their concatenation as content and the agent message's
    custom content; the fragments were appended to the choice in the order
    of arrival (an empty fragment appends nothing). *)
Theorem streamed_fragments_assembled (msgs : list Entry)
    (fragments : list string) (t : Trace) :
  synthesis_messages env request agent_message = Ok msgs ->
  create_stream env client (deployment_name self) msgs
    = Ok {| chunks := fragment_chunk <$> fragments; broken := None |} ->
  exists final emitted,
    final_response env self client request agent_message t
      = (Ok final,
         t ++ SynthesisCall (deployment_name self) msgs
                :: (ChoiceContent <$> emitted)) /\
    emitted = List.filter truthy fragments /\
    join emitted = join fragments /\
    content final = Some (join fragments) /\
    custom_content final = custom_content agent_message /\
    role final = ASSISTANT.
Proof.
  intros Hsyn Hstream.
  exists (final_message (join fragments) agent_message),
         (List.filter truthy fragments).
  rewrite final_response_run, Hsyn. cbv zeta. rewrite Hstream.
  cbn [chunks broken]. rewrite contributions_fragments, join_truthy.
  done.
Qed.

(** C10: one step of the loop never fails and adds exactly what the chunk
    contributes, which is nothing for a chunk without choices, without a
    delta, or with absent or empty content; so when the stream ends, the
    returned content is the concatenation, in order, of the non-empty delta
    contents, and these are what was appended to the choice. *)
Theorem only_nonempty_deltas_counted (msgs : list Entry) (cs : list Chunk)
    (t : Trace) :
  synthesis_messages env request agent_message = Ok msgs ->
  create_stream env client (deployment_name self) msgs
    = Ok {| chunks := cs; broken := None |} ->
  (forall acc c t',
     on_chunk acc c t'
     = (Ok (acc +:+ default "" (chunk_text c)),
        t' ++ (ChoiceContent <$> option_list (chunk_text c)))) /\
  Forall (fun text => text <> "") (contributions cs) /\
  exists final,
    final_response env self client request agent_message t
      = (Ok final,
         t ++ SynthesisCall (deployment_name self) msgs
                :: (ChoiceContent <$> contributions cs)) /\
    content final = Some (join (contributions cs)).
Proof.
  intros Hsyn Hstream.
  split; [apply on_chunk_run|]. split; [apply contributions_nonempty|].
  exists (final_message (join (contributions cs)) agent_message).
  rewrite final_response_run, Hsyn. cbv zeta. by rewrite Hstream.
Qed.

End Synthesis.

Lemma synthesis_prompt_rewritten_witness :
  exists before prompt,
    prepare_messages jane (FINAL_RESPONSE_SYSTEM_PROMPT happy_env)
      = before ++ [prepare_entry (plain USER "Create a new account for Jane")] /\
    prompt = ("## CONTEXT:" +:+ LF +:+ " ") +:+ "Account created" +:+
             (LF +:+ " ---" +:+ LF +:+ " ## USER_REQUEST: " +:+ LF +:+ " ")
             +:+ "Create a new account for Jane" /\
    synthesis_messages happy_env jane account_created
      = Ok (before ++ [<["content" := VStr prompt]>
                         (prepare_entry
                            (plain USER "Create a new account for Jane"))]) /\
    exists r rest,
      final_response happy_env (configured happy_env)
                     (dial_client (configured happy_env) jane) jane
                     account_created []
      = (r, [] ++ SynthesisCall (deployment_name (configured happy_env))
                    (before ++ [<["content" := VStr prompt]>
                                  (prepare_entry
                                     (plain USER
                                        "Create a new account for Jane"))])
                  :: rest).
Proof.
  apply (synthesis_prompt_rewritten happy_env (configured happy_env)
           (dial_client (configured happy_env) jane) jane account_created
           "Account created" "Create a new account for Jane"
           (prepare_entry (plain USER "Create a new account for Jane")) []).
  - reflexivity.
  - reflexivity.
  - reflexivity.
Defined.

Lemma streamed_fragments_assembled_witness :
  exists final emitted,
    final_response happy_env (configured happy_env)
                   (dial_client (configured happy_env) jane) jane
                   account_created []
      = (Ok final,
         [] ++ SynthesisCall "gpt-4o"
                 [system_entry "Answer the user";
                  <["content" :=
                      VStr (augmented_prompt "Account created"
                              "Create a new account for Jane")]>
                    (prepare_entry
                       (plain USER "Create a new account for Jane"))]
               :: (ChoiceContent <$> emitted)) /\
    emitted = List.filter truthy ["Hel"; "lo"] /\
    join emitted = join ["Hel"; "lo"] /\
    content final = Some (join ["Hel"; "lo"]) /\
    custom_content final = custom_content account_created /\
    role final = ASSISTANT.
Proof.
  apply (streamed_fragments_assembled happy_env (configured happy_env)
           (dial_client (configured happy_env) jane) jane account_created
           _ ["Hel"; "lo"] []).
  - reflexivity.
  - reflexivity.
Defined.

Lemma only_nonempty_deltas_counted_witness :
  (forall acc c t',
     on_chunk acc c t'
     = (Ok (acc +:+ default "" (chunk_text c)),
        t' ++ (ChoiceContent <$> option_list (chunk_text c)))) /\
  Forall (fun text => text <> "") (contributions patchy) /\
  exists final,
    final_response patchy_env (configured patchy_env)
                   (dial_client (configured patchy_env) jane) jane
                   account_created []
      = (Ok final,
         [] ++ SynthesisCall "gpt-4o"
                 [system_entry "Answer the user";
                  <["content" :=
                      VStr (augmented_prompt "Account created"
                              "Create a new account for Jane")]>
                    (prepare_entry
                       (plain USER "Create a new account for Jane"))]
               :: (ChoiceContent <$> contributions patchy)) /\
    content final = Some (join (contributions patchy)).
Proof.
  apply (only_nonempty_deltas_counted patchy_env (configured patchy_env)
           (dial_client (configured patchy_env) jane) jane account_created
           _ patchy []).
  - reflexivity.
  - reflexivity.
Defined.

(** ** The pipeline as a whole *)

Lemma stage_count_snoc t n title :
  stage_count (t ++ [StageOpened n title]) = S (stage_count t).
Proof.
  unfold stage_count. rewrite List.filter_app, length_app. simpl. lia.
Qed.

Lemma stage_count_quiet t ev :
  is_opening ev = false -> stage_count (t ++ [ev]) = stage_count t.
Proof.
  intros Hev. unfold stage_count.
  rewrite List.filter_app, length_app. simpl. rewrite Hev. simpl. lia.
Qed.

Lemma synthesis_opens_nothing synth :
  Forall synthesis_event synth -> opened synth = [].
Proof.
  induction 1 as [|ev ? Hev _ IH]; [done|].
  unfold opened in *. cbn [omap list_omap]. rewrite IH. by destruct ev.
Qed.

Lemma synthesis_closes_nothing synth :
  Forall synthesis_event synth -> closed synth = [].
Proof.
  induction 1 as [|ev ? Hev _ IH]; [done|].
  unfold closed in *. cbn [omap list_omap]. rewrite IH. by destruct ev.
Qed.

Lemma synthesis_has_no_agent_call synth g request stage instructions :
  Forall synthesis_event synth ->
  AgentCall g request stage instructions ∉ synth.
Proof.
  intros Hsynth Hin. rewrite Forall_forall in Hsynth. exact (Hsynth _ Hin).
Qed.

Lemma opened_app a b : opened (a ++ b) = opened a ++ opened b.
Proof. apply omap_app. Qed.

Lemma closed_app a b : closed (a ++ b) = closed a ++ closed b.
Proof. apply omap_app. Qed.

Lemma agent_reported_app env a b :
  agent_reported env (a ++ b) = agent_reported env a || agent_reported env b.
Proof. apply existsb_app. Qed.

Lemma unclosed_known t o c :
  opened t = o -> closed t = c -> unclosed t = filter (fun s => s ∉ c) o.
Proof. intros <- <-. reflexivity. Qed.

Lemma both_closed (n : nat) :
  filter (fun s => s ∉ [n; S n]) [n; S n] = [].
Proof. rewrite !filter_cons_False, filter_nil by set_solver. done. Qed.

Lemma first_open (n : nat) : filter (fun s => s ∉ @nil nat) [n] = [n].
Proof. rewrite filter_cons_True, filter_nil by set_solver. done. Qed.

Lemma second_open (n : nat) : filter (fun s => s ∉ [n]) [n; S n] = [S n].
Proof.
  rewrite filter_cons_False by set_solver.
  rewrite filter_cons_True, filter_nil; [done|].
  rewrite list_elem_of_singleton. lia.
Qed.

(** Case analysis on where in a trace a gateway call sits. *)
Ltac locate_call H :=
  repeat match type of H with
         | _ \/ _ => destruct H as [H|H]
         | _ ∈ _ ++ _ => apply elem_of_app in H
         | _ ∈ _ :: _ => apply elem_of_cons in H
         | _ ∈ [] => by apply elem_of_nil in H
         | AgentCall _ _ _ _ = AgentCall _ _ _ _ => injection H as -> -> -> ->
         | _ = _ => discriminate H
         end.

Section Pipeline.

Context (env : Env) (self : MASCoordinator) (request : Request).

(** [handle_request], phase by phase. *)
Lemma handle_request_run t :
  let n := stage_count t in
  let client := dial_client self request in
  handle_request env self request t
  = match decision env self client request with
    | Raise e => (Raise e, t ++ deciding env self request n)
    | Ok p =>
        match selected self (agent_name p) with
        | None =>
            (Raise (ValueError "Unknown Agent"),
             t ++ deciding env self request n ++ narrated env p n)
        | Some g =>
            match agent_response env g request (S n)
                                 (additional_instructions p) with
            | Raise e =>
                (Raise e,
                 t ++ deciding env self request n ++ narrated env p n
                   ++ calling g request p n)
            | Ok agent_message =>
                match Message_json env agent_message with
                | Raise e =>
                    (Raise e,
                     t ++ deciding env self request n ++ narrated env p n
                       ++ calling g request p n)
                | Ok _ =>
                    let (r, t') :=
                      final_response env self client request agent_message
                        (t ++ deciding env self request n
                           ++ narrated env p n ++ calling g request p n
                           ++ [StageClosed (S n)]) in
                    (logged env r, t')
                end
            end
        end
    end.
Proof.
  intros n client.
  unfold handle_request, bind at 1. unfold open_stage at 1.
  fold (stage_count t). fold n. fold client.
  unfold bind at 1, prepare_coordination_request, bind at 1, emit at 1,
    lift at 1.
  destruct (decision env self client request) as [p|e].
  2:{ unfold deciding. by rewrite <- app_assoc. }
  unfold bind at 1, append_content, emit at 1.
  unfold bind at 1, close_stage_safely at 1, emit at 1.
  unfold bind at 1, open_stage at 1.
  match goal with
  | |- context [length (List.filter is_opening ?tr)] =>
      change (length (List.filter is_opening tr)) with (stage_count tr)
  end.
  rewrite !stage_count_quiet by done. rewrite stage_count_snoc. fold n.
  unfold bind at 1. rewrite dispatch_run.
  assert (Htrace :
    ((((t ++ [StageOpened n "Coordination Request"])
         ++ [DecisionCall (deployment_name self)
               (prepare_messages request
                  (COORDINATION_REQUEST_SYSTEM_PROMPT env))])
        ++ [StageContent n (fenced (model_dump_json env p))])
       ++ [StageClosed n])
      ++ [StageOpened (S n) (call_title env (agent_name p))]
    = t ++ deciding env self request n ++ narrated env p n).
  { unfold deciding, narrated. by rewrite <- !app_assoc. }
  rewrite Htrace.
  destruct (selected self (agent_name p)) as [g|]; [|done].
  destruct (agent_response env g request (S n) (additional_instructions p))
    as [agent_message|e].
  2:{ unfold calling. by rewrite <- !app_assoc. }
  unfold bind, lift, close_stage_safely, emit, ret, logged, and_then.
  assert (Hcalled :
    (t ++ deciding env self request n ++ narrated env p n)
      ++ [AgentCall g request (S n) (additional_instructions p)]
    = t ++ deciding env self request n ++ narrated env p n
        ++ calling g request p n).
  { unfold calling. by rewrite <- !app_assoc. }
  rewrite Hcalled.
  destruct (Message_json env agent_message) as [text|e]; [|done].
  assert (Hclosed :
    (t ++ deciding env self request n ++ narrated env p n
       ++ calling g request p n) ++ [StageClosed (S n)]
    = t ++ deciding env self request n ++ narrated env p n
        ++ calling g request p n ++ [StageClosed (S n)]).
  { by rewrite <- !app_assoc. }
  rewrite Hclosed.
  destruct (final_response env self client request agent_message _)
    as [[final|e] t']; [|done].
  by destruct (Message_json env final).
Qed.

(** C7: when the gateway call of a request raises, the request ends with
    that very error, no streaming synthesis call was issued, and
    [chat_completion] logs the error and raises it again. *)
Theorem agent_failure_aborts (t new : Trace) (r : Result Message)
    (g : Gateway) (rq : Request) (stage : nat) (instructions : string)
    (e : Exception) :
  handle_request env self request t = (r, t ++ new) ->
  AgentCall g rq stage instructions ∈ new ->
  agent_response env g rq stage instructions = Raise e ->
  r = Raise e /\
  synthesis_calls new = [] /\
  (self = configured env ->
   chat_completion env request t = (Raise e, t ++ new ++ [ErrorLogged e])).
Proof.
  intros Hrun Hin Hraise.
  assert (Hr : r = Raise e /\ synthesis_calls new = []).
  { rewrite handle_request_run in Hrun. cbv zeta in Hrun.
    destruct (decision env self (dial_client self request) request) as [p|e'].
    2:{ injection Hrun as <- Hnew. apply app_inv_head in Hnew. subst new.
        unfold deciding in Hin. locate_call Hin. }
    destruct (selected self (agent_name p)) as [g'|].
    2:{ injection Hrun as <- Hnew. apply app_inv_head in Hnew. subst new.
        unfold deciding, narrated in Hin. locate_call Hin. }
    destruct (agent_response env g' request (S (stage_count t))
                (additional_instructions p)) as [agent_message|e'] eqn:Hans.
    - destruct (Message_json env agent_message) as [text|e'].
      + destruct (final_response_events env self (dial_client self request)
                    request agent_message
                    (t ++ deciding env self request (stage_count t)
                       ++ narrated env p (stage_count t)
                       ++ calling g' request p (stage_count t)
                       ++ [StageClosed (S (stage_count t))]))
          as (r' & synth & Hfinal & Hsynth).
        rewrite Hfinal in Hrun. injection Hrun as <- Hnew.
        rewrite <- !app_assoc in Hnew. apply app_inv_head in Hnew.
        subst new.
        unfold deciding, narrated, calling in Hin. locate_call Hin.
        * congruence.
        * by apply (synthesis_has_no_agent_call _ _ _ _ _ Hsynth) in Hin.
      + injection Hrun as <- Hnew. apply app_inv_head in Hnew. subst new.
        unfold deciding, narrated, calling in Hin. locate_call Hin.
        congruence.
    - injection Hrun as <- Hnew. apply app_inv_head in Hnew. subst new.
      unfold deciding, narrated, calling in Hin. locate_call Hin.
      split; [congruence | done]. }
  destruct Hr as [-> Hnone]. split; [done|]. split; [done|].
  intros Hself. unfold chat_completion. fold (configured env).
  rewrite <- Hself, Hrun. by rewrite <- app_assoc.
Qed.

(** C8 (amended): the coordinator closes each stage only after the phase it
    narrates has returned.  When the agent call returns a message and that
    message is serialised for the log, both stages are opened and both are
    closed, whatever happens afterwards.  Otherwise the request fails with
    exactly one stage left open: the first when the decision fails, the
    second when dispatch, the agent call or the serialisation of the
    agent's message fails. *)
Theorem stages_closed_once_agent_answers (t : Trace) :
  let n := stage_count t in
  exists r new,
    handle_request env self request t = (r, t ++ new) /\
    if agent_reported env new
    then opened new = [n; S n] /\ closed new = [n; S n] /\ unclosed new = []
    else exists e,
        r = Raise e /\
        ((opened new = [n] /\ closed new = [] /\ unclosed new = [n]) \/
         (opened new = [n; S n] /\ closed new = [n] /\ unclosed new = [S n])).
Proof.
  intros n. rewrite handle_request_run. cbv zeta. fold n.
  destruct (decision env self (dial_client self request) request) as [p|e].
  2:{ eexists _, _. split; [reflexivity|]. simpl.
      exists e. split; [done|]. left.
      split; [done|]. split; [done|]. apply first_open. }
  destruct (selected self (agent_name p)) as [g|].
  2:{ eexists _, _. split; [reflexivity|]. simpl.
      exists (ValueError "Unknown Agent"). split; [done|]. right.
      split; [done|]. split; [done|]. apply second_open. }
  destruct (agent_response env g request (S n) (additional_instructions p))
    as [agent_message|e] eqn:Hans.
  - destruct (Message_json env agent_message) as [text|e] eqn:Hjson.
    + destruct (final_response_events env self (dial_client self request)
                  request agent_message
                  (t ++ deciding env self request n ++ narrated env p n
                     ++ calling g request p n ++ [StageClosed (S n)]))
        as (r & synth & Hfinal & Hsynth).
      exists (logged env r),
             (deciding env self request n ++ narrated env p n
              ++ calling g request p n ++ [StageClosed (S n)] ++ synth).
      split.
      { rewrite Hfinal. by rewrite <- !app_assoc. }
      assert (Hans' : agent_reported env (calling g request p n) = true).
      { unfold calling, agent_reported. cbn [existsb].
        by rewrite Hans, Hjson. }
      rewrite !agent_reported_app, Hans', !orb_true_r.
      assert (Ho : opened (deciding env self request n ++ narrated env p n
                           ++ calling g request p n ++ [StageClosed (S n)]
                           ++ synth) = [n; S n]).
      { rewrite !opened_app, (synthesis_opens_nothing _ Hsynth). done. }
      assert (Hc : closed (deciding env self request n ++ narrated env p n
                           ++ calling g request p n ++ [StageClosed (S n)]
                           ++ synth) = [n; S n]).
      { rewrite !closed_app, (synthesis_closes_nothing _ Hsynth). done. }
      split; [done|]. split; [done|].
      rewrite (unclosed_known _ _ _ Ho Hc). apply both_closed.
    + eexists _, _. split; [reflexivity|].
      assert (Hans' : agent_reported env (calling g request p n) = false).
      { unfold calling, agent_reported. cbn [existsb].
        by rewrite Hans, Hjson. }
      rewrite !agent_reported_app, Hans'. simpl.
      exists e. split; [done|]. right.
      split; [done|]. split; [done|]. apply second_open.
  - eexists _, _. split; [reflexivity|].
    assert (Hans' : agent_reported env (calling g request p n) = false).
    { unfold calling, agent_reported. cbn [existsb]. by rewrite Hans. }
    rewrite !agent_reported_app, Hans'. simpl.
    exists e. split; [done|]. right.
    split; [done|]. split; [done|]. apply second_open.
Qed.

End Pipeline.

Lemma agent_failure_aborts_witness :
  let env := ums_down_env in
  let self := configured env in
  let new := deciding env self jane 0 ++ narrated env to_ums 0
             ++ calling (UMSAgentGateway "http://localhost:8042") jane to_ums 0 in
  @Raise Message ums_down = Raise ums_down /\
  synthesis_calls new = [] /\
  (self = configured env ->
   chat_completion env jane [] = (Raise ums_down, [] ++ new ++ [ErrorLogged ums_down])).
Proof.
  intros env self new.
  apply (agent_failure_aborts env self jane [] new (Raise ums_down)
           (UMSAgentGateway "http://localhost:8042") jane 1
           "create account for Jane" ums_down).
  - reflexivity.
  - unfold new. rewrite !elem_of_app. right. right. apply list_elem_of_here.
  - reflexivity.
Defined.

(** The claim of C8 as stated fails: when the decision call raises, the
    request fails and the first stage is never closed; when the agent call
    raises, the request fails and the second stage is never closed. *)
Lemma stage_left_open_on_failure :
  let env := scripted (Raise schema_mismatch)
                      (fun _ => Ok account_created) (Ok hello_stream) in
  let new := deciding env (configured env) jane 0 in
  let env' := ums_down_env in
  let new' := deciding env' (configured env') jane 0 ++ narrated env' to_ums 0
              ++ calling (UMSAgentGateway "http://localhost:8042") jane
                         to_ums 0 in
  (handle_request env (configured env) jane [] = (Raise schema_mismatch, new) /\
   opened new = [0] /\ closed new = [] /\ unclosed new = [0]) /\
  (handle_request env' (configured env') jane [] = (Raise ums_down, new') /\
   opened new' = [0; 1] /\ closed new' = [0] /\ unclosed new' = [1]).
Proof. repeat split; reflexivity. Qed.

(** The path through the log line that follows the agent call: the agent
    has answered, its message cannot be serialised, the request fails and
    the second stage is left open. *)
Example stage_left_open_on_log_failure :
  let env := unloggable_env in
  let new := deciding env (configured env) jane 0 ++ narrated env to_ums 0
             ++ calling (UMSAgentGateway "http://localhost:8042") jane
                        to_ums 0 in
  handle_request env (configured env) jane [] = (Raise unloggable, new) /\
  agent_reported env new = false /\
  opened new = [0; 1] /\ closed new = [0] /\ unclosed new = [1].
Proof. repeat split; reflexivity. Qed.

(** ** Further properties of the message history builder *)

(** X2: the history of a longer conversation extends the history of a
    shorter one: when a request has the messages of another followed by
    more, its history is the other's history followed by the entries of the
    additional messages. *)
Theorem history_extends (shorter longer : Request) (extra : list Message)
    (system_prompt : string) :
  messages longer = messages shorter ++ extra ->
  prepare_messages longer system_prompt
  = prepare_messages shorter system_prompt ++ (prepare_entry <$> extra).
Proof.
  intros Hext. rewrite !prepare_messages_cons, Hext, fmap_app. done.
Qed.

Lemma history_extends_witness :
  prepare_messages
    (conversation [plain USER "hi"; plain ASSISTANT "hello";
                   plain USER "list the users"]) "You are a helper"
  = prepare_messages (conversation [plain USER "hi"]) "You are a helper"
    ++ (prepare_entry <$> [plain ASSISTANT "hello";
                           plain USER "list the users"]).
Proof.
  apply (history_extends (conversation [plain USER "hi"])
           (conversation [plain USER "hi"; plain ASSISTANT "hello";
                          plain USER "list the users"])
           [plain ASSISTANT "hello"; plain USER "list the users"]
           "You are a helper").
  reflexivity.
Defined.

(** ** Further properties of the synthesis phase *)

Lemma prepare_entry_content m :
  prepare_entry m !! "content"
  = if stripped m then Some (VStr (StrictStr (content m)))
    else VStr <$> content m.
Proof.
  unfold prepare_entry, stripped.
  destruct (bool_decide (is_Some (custom_content m)) &&
            bool_decide (role m = USER)).
  - by rewrite lookup_insert_eq.
  - apply Message_dict_content.
Qed.

Lemma system_entry_content system_prompt :
  system_entry system_prompt !! "content" = Some (VStr system_prompt).
Proof. unfold system_entry. by rewrite lookup_insert_ne, lookup_insert_eq. Qed.

Lemma setitem_last_length (xs xs' : list Entry) k v :
  setitem_last xs k v = Ok xs' -> length xs' = length xs.
Proof.
  unfold setitem_last. destruct (last xs); [|done].
  intros [= <-]. apply length_insert.
Qed.

Lemma on_chunk_first_choice acc c t :
  on_chunk acc (first_choice_only c) t = on_chunk acc c t.
Proof.
  unfold on_chunk, first_choice_only. cbn [chunk_choices].
  by destruct (chunk_choices c) as [|choice0 rest].
Qed.

Section SynthesisEdges.

Context (env : Env) (self : MASCoordinator) (client : AsyncDial)
        (request : Request) (agent_message : Message).

(** X3: the synthesis phase can only fail before its LLM call with a missing
    content key, and does so exactly when the conversation ends with a
    passed-through message without content; then nothing is sent and
    nothing is streamed.  In every other case the list for the streaming
    call is built, with one entry per inbound message plus one. *)
Theorem synthesis_fails_only_without_text (t : Trace) :
  if ends_without_text request
  then synthesis_messages env request agent_message
         = Raise (KeyError "content") /\
       final_response env self client request agent_message t
         = (Raise (KeyError "content"), t)
  else exists msgs,
         synthesis_messages env request agent_message = Ok msgs /\
         length msgs = S (length (messages request)).
Proof.
  assert (Hcases :
    (ends_without_text request = true /\
     synthesis_messages env request agent_message
       = Raise (KeyError "content")) \/
    (ends_without_text request = false /\
     exists msgs, synthesis_messages env request agent_message = Ok msgs)).
  { unfold synthesis_messages, getitem_last, ends_without_text.
    rewrite prepare_messages_last.
    pose proof (prepare_messages_last request
                  (FINAL_RESPONSE_SYSTEM_PROMPT env)) as Hlast.
    cbn [and_then]. unfold getitem.
    destruct (last (messages request)) as [m|]; cbn [fmap option_fmap
      option_map default from_option id].
    - rewrite prepare_entry_content.
      destruct (stripped m); cbn [negb andb].
      + right. split; [done|]. cbn [and_then]. unfold setitem_last.
        rewrite Hlast. eauto.
      + destruct (content m) as [text|]; cbn [fmap option_fmap option_map].
        * right. split; [done|]. cbn [and_then]. unfold setitem_last.
          rewrite Hlast. eauto.
        * left. done.
    - rewrite system_entry_content. right. split; [done|].
      cbn [and_then]. unfold setitem_last. rewrite Hlast. eauto. }
  destruct Hcases as [[-> Hraise]|[-> [msgs Hok]]].
  - split; [done|]. rewrite final_response_run. by rewrite Hraise.
  - exists msgs. split; [done|].
    unfold synthesis_messages in Hok.
    destruct (getitem_last _) as [e|]; [|done]. cbn [and_then] in Hok.
    destruct (getitem e "content") as [v|]; [|done]. cbn [and_then] in Hok.
    apply setitem_last_length in Hok. rewrite Hok.
    rewrite prepare_messages_cons. simpl. by rewrite length_fmap.
Qed.

(** X4: for a request without messages the last entry is the system entry
    itself: the streaming call gets a single entry, still with role System,
    whose content is the augmented prompt with the system prompt in the
    place of the user request. *)
Theorem empty_conversation_rewrites_system_entry :
  messages request = [] ->
  exists e,
    synthesis_messages env request agent_message = Ok [e] /\
    e !! "role" = Some (VRole SYSTEM) /\
    e !! "content"
      = Some (VStr (augmented_prompt (StrictStr (content agent_message))
                      (FINAL_RESPONSE_SYSTEM_PROMPT env))).
Proof.
  intros Hempty.
  exists (<["content" :=
             VStr (augmented_prompt (StrictStr (content agent_message))
                     (FINAL_RESPONSE_SYSTEM_PROMPT env))]>
            (system_entry (FINAL_RESPONSE_SYSTEM_PROMPT env))).
  split; [|split].
  - rewrite (synthesis_messages_snoc env request agent_message []
               (system_entry (FINAL_RESPONSE_SYSTEM_PROMPT env))
               (VStr (FINAL_RESPONSE_SYSTEM_PROMPT env))); [done| |].
    + rewrite prepare_messages_cons, Hempty. done.
    + apply system_entry_content.
  - rewrite lookup_insert_ne by done. unfold system_entry.
    by rewrite lookup_insert_eq.
  - by rewrite lookup_insert_eq.
Qed.

(** X5: a text that is not set is rendered as the word None.  When the
    conversation ends with a User message that has custom content but no
    content, and the agent's message has no content either, the rewritten
    last entry has role User and the augmented prompt built from None and
    None, and nothing else. *)
Theorem unset_text_rendered_as_None (m : Message) :
  last (messages request) = Some m ->
  role m = USER ->
  is_Some (custom_content m) ->
  content m = None ->
  content agent_message = None ->
  exists before,
    synthesis_messages env request agent_message
    = Ok (before ++
          [<["content" := VStr (augmented_prompt "None" "None")]>
             (<["role" := VRole USER]> ∅)]).
Proof.
  intros Hlast Hr Hc Hm Ha.
  pose proof (prepare_messages_last request
                (FINAL_RESPONSE_SYSTEM_PROMPT env)) as Hl.
  rewrite Hlast in Hl. cbn [fmap option_fmap option_map default from_option
    id] in Hl.
  apply last_Some in Hl as [before Hmsgs]. exists before.
  rewrite (synthesis_messages_snoc env request agent_message before
             (prepare_entry m) (VStr "None") Hmsgs).
  - rewrite Ha. cbn [StrictStr format_value].
    rewrite (prepare_entry_stripped m Hc Hr), Hm. cbn [StrictStr].
    by rewrite insert_insert_eq.
  - rewrite (prepare_entry_stripped m Hc Hr), Hm. by rewrite lookup_insert_eq.
Qed.

(** X6: when the stream breaks after some chunks, the request fails with the
    stream's error and no message is returned, while the content of the
    chunks received before the break has been appended to the choice. *)
Theorem broken_stream_keeps_partial_content (msgs : list Entry)
    (cs : list Chunk) (e : Exception) (t : Trace) :
  synthesis_messages env request agent_message = Ok msgs ->
  create_stream env client (deployment_name self) msgs
    = Ok {| chunks := cs; broken := Some e |} ->
  exists new,
    final_response env self client request agent_message t
      = (Raise e, t ++ new) /\
    choice_contents new = contributions cs /\
    calls new = [Synthesis].
Proof.
  intros Hsyn Hstream.
  exists (SynthesisCall (deployment_name self) msgs
            :: (ChoiceContent <$> contributions cs)).
  rewrite final_response_run, Hsyn. cbv zeta. rewrite Hstream.
  cbn [chunks broken]. split; [done|].
  unfold choice_contents, calls. cbn [omap list_omap].
  split.
  - induction (contributions cs) as [|x l IH]; [done|].
    rewrite fmap_cons. cbn [omap list_omap]. by rewrite IH.
  - f_equal. induction (contributions cs) as [|x l IH]; [done|].
    rewrite fmap_cons. cbn [omap list_omap]. exact IH.
Qed.

End SynthesisEdges.

Lemma empty_conversation_rewrites_system_entry_witness :
  exists e,
    synthesis_messages happy_env (conversation []) account_created = Ok [e] /\
    e !! "role" = Some (VRole SYSTEM) /\
    e !! "content"
      = Some (VStr (augmented_prompt (StrictStr (content account_created))
                      (FINAL_RESPONSE_SYSTEM_PROMPT happy_env))).
Proof.
  apply (empty_conversation_rewrites_system_entry happy_env (conversation [])
           account_created).
  reflexivity.
Defined.

Lemma unset_text_rendered_as_None_witness :
  exists before,
    synthesis_messages happy_env
      (conversation [plain USER "hi"; attachment_only]) silent_agent
    = Ok (before ++
          [<["content" := VStr (augmented_prompt "None" "None")]>
             (<["role" := VRole USER]> ∅)]).
Proof.
  apply (unset_text_rendered_as_None happy_env
           (conversation [plain USER "hi"; attachment_only]) silent_agent
           attachment_only).
  - reflexivity.
  - reflexivity.
  - exists id_42. reflexivity.
  - reflexivity.
  - reflexivity.
Defined.

Lemma broken_stream_keeps_partial_content_witness :
  exists new,
    final_response cut_off_env (configured cut_off_env)
                   (dial_client (configured cut_off_env) jane) jane
                   account_created []
      = (Raise cut_off, [] ++ new) /\
    choice_contents new = contributions [fragment_chunk "Hel"] /\
    calls new = [Synthesis].
Proof.
  apply (broken_stream_keeps_partial_content cut_off_env
           (configured cut_off_env)
           (dial_client (configured cut_off_env) jane) jane account_created
           [system_entry "Answer the user";
            <["content" :=
                VStr (augmented_prompt "Account created"
                        "Create a new account for Jane")]>
              (prepare_entry (plain USER "Create a new account for Jane"))]
           [fragment_chunk "Hel"] cut_off []).
  - reflexivity.
  - reflexivity.
Defined.

(** X8: only the first choice of a chunk is ever read: cutting every chunk
    down to its first choice changes neither the accumulated text nor what
    is appended to the choice. *)
Theorem later_choices_ignored (cs : list Chunk) (acc : string) (t : Trace) :
  for_each_chunk (first_choice_only <$> cs) acc t = for_each_chunk cs acc t.
Proof.
  revert acc t. induction cs as [|c cs IH]; intros acc t; [done|].
  rewrite fmap_cons. cbn [for_each_chunk]. unfold bind.
  rewrite on_chunk_first_choice.
  destruct (on_chunk acc c t) as [[acc'|e] t']; [apply IH | done].
Qed.

(** ** Further properties of the pipeline *)

Lemma final_response_summary env self client request agent_message t :
  final_response env self client request agent_message t
  = ((synthesis_summary env self client request agent_message).1,
     t ++ (synthesis_summary env self client request agent_message).2).
Proof.
  rewrite final_response_run. unfold synthesis_summary.
  destruct (synthesis_messages env request agent_message) as [msgs|e].
  - cbv zeta.
    by destruct (create_stream env client (deployment_name self) msgs).
  - simpl. by rewrite app_nil_r.
Qed.

Lemma handle_request_summary env self request t :
  handle_request env self request t
  = ((request_summary env self request (stage_count t)).1,
     t ++ (request_summary env self request (stage_count t)).2).
Proof.
  rewrite handle_request_run. cbv zeta. unfold request_summary.
  destruct (decision env self (dial_client self request) request) as [p|e];
    [|done].
  destruct (selected self (agent_name p)) as [g|]; [|done].
  destruct (agent_response env g request (S (stage_count t))
              (additional_instructions p)) as [agent_message|e]; [|done].
  destruct (Message_json env agent_message) as [text|e]; [|done].
  rewrite final_response_summary.
  destruct (synthesis_summary env self (dial_client self request) request
              agent_message) as [r synth].
  cbn [fst snd]. by rewrite <- !app_assoc.
Qed.

Lemma handle_request_inv env self request t r new :
  handle_request env self request t = (r, t ++ new) ->
  request_summary env self request (stage_count t) = (r, new).
Proof.
  rewrite handle_request_summary.
  destruct (request_summary env self request (stage_count t)) as [r0 new0].
  cbn [fst snd]. intros [= <- Hnew]. apply app_inv_head in Hnew.
  by subst.
Qed.

Lemma omap_streamed {A} (f : Event -> option A) (l : list string) :
  (forall text, f (ChoiceContent text) = None) ->
  omap f (ChoiceContent <$> l) = [].
Proof.
  intros Hf. induction l as [|x l IH]; [done|].
  rewrite fmap_cons. cbn [omap list_omap]. by rewrite Hf.
Qed.

Lemma choice_contents_streamed l : choice_contents (ChoiceContent <$> l) = l.
Proof.
  induction l as [|x l IH]; [done|].
  rewrite fmap_cons. unfold choice_contents in *. cbn [omap list_omap].
  by rewrite IH.
Qed.

Lemma sequential_streamed o l : sequential o (ChoiceContent <$> l) = true.
Proof. induction l as [|x l IH]; [done|]. exact IH. Qed.

(** Case analysis on the answers of the collaborators, phase by phase. *)
Ltac by_phase env self request n :=
  unfold request_summary, synthesis_summary, logged;
  destruct (decision env self (dial_client self request) request) as [?p|?e];
  [ destruct (selected self (agent_name p)) as [?g|] eqn:?Hsel;
    [ destruct (agent_response env g request (S n)
                  (additional_instructions p)) as [?am|?e] eqn:?Hans;
      [ destruct (Message_json env am) as [?text|?e] eqn:?Hlog;
        [ destruct (synthesis_messages env request am)
            as [?msgs|?e] eqn:?Hsyn;
          [ destruct (create_stream env (dial_client self request)
                        (deployment_name self) msgs) as [?s|?e] eqn:?Hstr;
            [ destruct (broken s) as [?e|] eqn:?Hbrk;
              [ | cbn [and_then];
                  destruct (Message_json env
                              (final_message
                                 (join (contributions (chunks s))) am))
                    as [?text|?e] eqn:?Hout ]
            | ]
          | ]
        | ]
      | ]
    | ]
  | ].

Section PipelineProperties.

Context (env : Env) (self : MASCoordinator) (request : Request).

(** X9: every request makes its outbound calls in the order decision call,
    agent call, streaming call, each at most once and none without the one
    before it; a request that succeeds has made exactly these three. *)
Theorem calls_in_order (t : Trace) :
  exists r new,
    handle_request env self request t = (r, t ++ new) /\
    match r with
    | Ok _ => calls new = [Decision; Agent; Synthesis]
    | Raise _ =>
        calls new = [Decision] \/
        calls new = [Decision; Agent] \/
        calls new = [Decision; Agent; Synthesis]
    end.
Proof.
  rewrite handle_request_summary.
  eexists _, _. split; [reflexivity|].
  by_phase env self request (stage_count t);
    cbn [fst snd and_then]; unfold deciding, narrated, calling, calls;
    cbn [app omap list_omap];
    rewrite ?omap_streamed by done; eauto.
Qed.

(** X10: stages are used one at a time: the coordinator opens a stage only
    while no stage of its own is open, closes only the stage that is open,
    and writes only to the stage that is open. *)
Theorem stages_used_one_at_a_time (t : Trace) :
  exists r new,
    handle_request env self request t = (r, t ++ new) /\
    sequential None new = true.
Proof.
  rewrite handle_request_summary.
  eexists _, _. split; [reflexivity|].
  by_phase env self request (stage_count t);
    cbn [fst snd]; unfold deciding, narrated, calling;
    cbn [app sequential];
    rewrite ?bool_decide_eq_true_2 by done; cbn [andb];
    rewrite ?sequential_streamed; done.
Qed.

(** X11: the only thing the coordinator writes to a stage is the decision,
    as a fenced JSON dump, into the first stage; when the decision fails
    nothing is written. *)
Theorem only_the_decision_is_narrated (t : Trace) :
  exists r new,
    handle_request env self request t = (r, t ++ new) /\
    stage_contents new
    = match decision env self (dial_client self request) request with
      | Ok p => [(stage_count t, fenced (model_dump_json env p))]
      | Raise _ => []
      end.
Proof.
  rewrite handle_request_summary.
  eexists _, _. split; [reflexivity|].
  by_phase env self request (stage_count t);
    cbn [fst snd]; unfold deciding, narrated, calling, stage_contents;
    cbn [app omap list_omap];
    rewrite ?omap_streamed by done; done.
Qed.

End PipelineProperties.

Section PipelineOutcomes.

Context (env : Env) (self : MASCoordinator) (request : Request).

(** X12: a request succeeds exactly when every step succeeds: the decision
    is obtained, it names a known agent, the agent returns a message, that
    message is serialised for the log, the last entry has content, the
    streaming call is accepted, the stream ends without breaking, and the
    assembled message is serialised for the log; the message returned is
    then the one assembled from the stream and the agent's message.  No
    failure is turned into a success and no success into a failure. *)
Theorem request_succeeds_iff (t : Trace) (final : Message) :
  (exists new, handle_request env self request t = (Ok final, t ++ new)) <->
  (exists p g am msgs s text text',
     decision env self (dial_client self request) request = Ok p /\
     selected self (agent_name p) = Some g /\
     agent_response env g request (S (stage_count t))
                    (additional_instructions p) = Ok am /\
     Message_json env am = Ok text /\
     synthesis_messages env request am = Ok msgs /\
     create_stream env (dial_client self request) (deployment_name self) msgs
       = Ok s /\
     broken s = None /\
     final = final_message (join (contributions (chunks s))) am /\
     Message_json env final = Ok text').
Proof.
  split.
  - intros [new Hrun]. apply handle_request_inv in Hrun. revert Hrun.
    by_phase env self request (stage_count t); intros [= Hfinal Hnew].
    exists p, g, am, msgs, s, text, text0. subst final. by repeat split.
  - intros (p & g & am & msgs & s & text & text' & Hd & Hsel & Hans & Hlog
            & Hsyn & Hstr & Hbrk & -> & Hout).
    rewrite handle_request_summary.
    unfold request_summary, synthesis_summary, logged.
    rewrite Hd, Hsel, Hans, Hlog, Hsyn. cbv zeta. rewrite Hstr, Hbrk.
    cbn [and_then]. rewrite Hout. cbn [fst snd and_then]. eauto.
Qed.

(** X13: on a request that succeeds, the returned message has role
    Assistant, its content is exactly the concatenation of what was
    appended to the choice during the request, and its custom content is
    that of the message the agent called in this request returned. *)
Theorem returned_content_is_streamed_content (t new : Trace)
    (final : Message) :
  handle_request env self request t = (Ok final, t ++ new) ->
  role final = ASSISTANT /\
  content final = Some (join (choice_contents new)) /\
  exists g stage instructions am,
    AgentCall g request stage instructions ∈ new /\
    agent_response env g request stage instructions = Ok am /\
    custom_content final = custom_content am.
Proof.
  intros Hrun. apply handle_request_inv in Hrun. revert Hrun.
  by_phase env self request (stage_count t); intros [= Hfinal Hnew].
  subst final new. split; [done|]. split.
  - cbn [content final_message StrictStr]. do 2 f_equal. symmetry.
    exact (choice_contents_streamed (contributions (chunks s))).
  - exists g, (S (stage_count t)), (additional_instructions p), am.
    split; [|done].
    repeat first [apply list_elem_of_here | apply list_elem_of_further].
Qed.

(** X14: whenever a gateway is called, it is the gateway selected by the
    decision, it gets the request as it came in and the instructions of the
    decision, and the stage it gets is the one titled Call, name, Agent,
    which was opened before the call and is not closed at that time; only
    the decision call precedes it. *)
Theorem agent_gets_open_stage (t new : Trace) (r : Result Message)
    (gw : Gateway) (rq : Request) (stage : nat) (instructions : string) :
  handle_request env self request t = (r, t ++ new) ->
  AgentCall gw rq stage instructions ∈ new ->
  rq = request /\
  stage = S (stage_count t) /\
  exists p pre post,
    decision env self (dial_client self request) request = Ok p /\
    selected self (agent_name p) = Some gw /\
    instructions = additional_instructions p /\
    new = pre ++ AgentCall gw rq stage instructions :: post /\
    StageOpened stage (call_title env (agent_name p)) ∈ pre /\
    (stage ∉ closed pre) /\
    calls pre = [Decision].
Proof.
  intros Hrun Hin. apply handle_request_inv in Hrun. revert Hrun Hin.
  by_phase env self request (stage_count t); intros Hrun Hin;
    apply (f_equal snd) in Hrun; cbn [snd] in Hrun;
    subst new; unfold deciding, narrated, calling in Hin; locate_call Hin;
    try (apply list_elem_of_fmap in Hin as (fragment & Hfragment & _);
         discriminate Hfragment);
    (split; [done|]; split; [done|];
     exists p, (deciding env self request (stage_count t)
                ++ narrated env p (stage_count t));
     eexists; split; [done|]; split; [done|]; split; [done|];
     split; [unfold calling; by rewrite <- ?app_assoc|];
     split; [unfold deciding, narrated; rewrite !elem_of_app, !elem_of_cons;
             tauto|];
     split; [|done];
     unfold deciding, narrated, closed; cbn [app omap list_omap];
     rewrite list_elem_of_singleton; lia).
Qed.

(** X15: when the decision call returns a completion without choices, the
    request fails with an index error right after the decision call: the
    first stage stays open, no agent is called and nothing is streamed. *)
Theorem no_choice_fails_with_IndexError (t : Trace) (c : Completion) :
  create_completion env (dial_client self request) (deployment_name self)
    (prepare_messages request (COORDINATION_REQUEST_SYSTEM_PROMPT env))
    = Ok c ->
  completion_choices c = [] ->
  handle_request env self request t
  = (Raise IndexError, t ++ deciding env self request (stage_count t)).
Proof.
  intros Hc Hnone. rewrite handle_request_run. cbv zeta.
  unfold decision. rewrite Hc. cbn [and_then]. rewrite Hnone. done.
Qed.

End PipelineOutcomes.

Lemma returned_content_is_streamed_content_witness :
  let final := final_message "Hello" account_created in
  role final = ASSISTANT /\
  content final = Some (join (choice_contents happy_trace)) /\
  exists g stage instructions am,
    AgentCall g jane stage instructions ∈ happy_trace /\
    agent_response happy_env g jane stage instructions = Ok am /\
    custom_content final = custom_content am.
Proof.
  intros final.
  apply (returned_content_is_streamed_content happy_env
           (configured happy_env) jane [] happy_trace final).
  reflexivity.
Defined.

Lemma agent_gets_open_stage_witness :
  let gw := UMSAgentGateway "http://localhost:8042" in
  jane = jane /\
  1 = S (stage_count []) /\
  exists p pre post,
    decision happy_env (configured happy_env)
             (dial_client (configured happy_env) jane) jane = Ok p /\
    selected (configured happy_env) (agent_name p) = Some gw /\
    "create account for Jane" = additional_instructions p /\
    happy_trace
      = pre ++ AgentCall gw jane 1 "create account for Jane" :: post /\
    StageOpened 1 (call_title happy_env (agent_name p)) ∈ pre /\
    (1 ∉ closed pre) /\
    calls pre = [Decision].
Proof.
  intros gw.
  apply (agent_gets_open_stage happy_env (configured happy_env) jane []
           happy_trace (Ok (final_message "Hello" account_created))
           gw jane 1 "create account for Jane").
  - reflexivity.
  - unfold happy_trace. rewrite !elem_of_app. right. right. left.
    apply list_elem_of_here.
Defined.

Lemma no_choice_fails_with_IndexError_witness :
  handle_request no_choice_env (configured no_choice_env) jane []
  = (Raise IndexError,
     [] ++ deciding no_choice_env (configured no_choice_env) jane
             (stage_count [])).
Proof.
  apply (no_choice_fails_with_IndexError no_choice_env
           (configured no_choice_env) jane []
           {| completion_choices := [] |}).
  - reflexivity.
  - reflexivity.
Defined.

Example happy_request :
  chat_completion happy_env jane [] = (Ok tt, happy_trace).
Proof. reflexivity. Qed.

(** ** The two LLM calls of a request *)

Lemma synthesis_messages_ok_shape env request agent_message msgs ms m :
  messages request = ms ++ [m] ->
  synthesis_messages env request agent_message = Ok msgs ->
  exists v,
    msgs = system_entry (FINAL_RESPONSE_SYSTEM_PROMPT env)
           :: (prepare_entry <$> ms)
           ++ [<["content" := VStr v]> (prepare_entry m)].
Proof.
  intros Hms Hsyn.
  assert (Hbuilt :
    prepare_messages request (FINAL_RESPONSE_SYSTEM_PROMPT env)
    = (system_entry (FINAL_RESPONSE_SYSTEM_PROMPT env)
       :: (prepare_entry <$> ms)) ++ [prepare_entry m]).
  { rewrite prepare_messages_cons, Hms, fmap_app. done. }
  destruct (prepare_entry m !! "content") as [v|] eqn:Hv.
  - rewrite (synthesis_messages_snoc env request agent_message _ _ v
               Hbuilt Hv) in Hsyn.
    injection Hsyn as <-. eexists. reflexivity.
  - unfold synthesis_messages, getitem_last in Hsyn.
    rewrite Hbuilt, last_snoc in Hsyn. cbn [and_then] in Hsyn.
    unfold getitem in Hsyn. rewrite Hv in Hsyn. discriminate Hsyn.
Qed.

(** Case analysis on where in a trace a streaming call sits. *)
Ltac locate_synthesis H :=
  repeat match type of H with
         | _ \/ _ => destruct H as [H|H]
         | _ ∈ _ ++ _ => apply elem_of_app in H
         | _ ∈ _ :: _ => apply elem_of_cons in H
         | _ ∈ [] => by apply elem_of_nil in H
         | SynthesisCall _ _ = SynthesisCall _ _ => injection H as -> ->
         | _ = _ => discriminate H
         end.

Section TwoCalls.

Context (env : Env) (self : MASCoordinator) (request : Request).

(** X17: the two LLM calls of a request go to the same deployment and see
    the same conversation.  Whenever the streaming call is made for a
    conversation that is not empty, the decision call was made before with
    the entries of the same messages after its own system prompt, and the
    list of the streaming call differs from it only in the system prompt
    and in the content of the last entry. *)
Theorem both_calls_share_history (t new : Trace) (r : Result Message)
    (deployment : string) (prompt : list Entry) (ms : list Message)
    (m : Message) :
  handle_request env self request t = (r, t ++ new) ->
  SynthesisCall deployment prompt ∈ new ->
  messages request = ms ++ [m] ->
  exists v,
    deployment = deployment_name self /\
    DecisionCall deployment
      (system_entry (COORDINATION_REQUEST_SYSTEM_PROMPT env)
       :: (prepare_entry <$> ms) ++ [prepare_entry m]) ∈ new /\
    prompt = system_entry (FINAL_RESPONSE_SYSTEM_PROMPT env)
             :: (prepare_entry <$> ms)
             ++ [<["content" := VStr v]> (prepare_entry m)].
Proof.
  intros Hrun Hin Hms.
  assert (Hcoord :
    prepare_messages request (COORDINATION_REQUEST_SYSTEM_PROMPT env)
    = system_entry (COORDINATION_REQUEST_SYSTEM_PROMPT env)
      :: (prepare_entry <$> ms) ++ [prepare_entry m]).
  { rewrite prepare_messages_cons, Hms, fmap_app. done. }
  apply handle_request_inv in Hrun. revert Hrun Hin.
  by_phase env self request (stage_count t); intros Hrun Hin;
    apply (f_equal snd) in Hrun; cbn [snd] in Hrun; subst new;
    unfold deciding, narrated, calling in Hin; locate_synthesis Hin;
    try (apply list_elem_of_fmap in Hin as (fragment & Hfragment & _);
         discriminate Hfragment);
    (destruct (synthesis_messages_ok_shape env request am msgs ms m Hms Hsyn)
       as [v ->];
     exists v; split; [done|]; split; [|done];
     unfold deciding; rewrite Hcoord;
     apply list_elem_of_further, list_elem_of_here).
Qed.

End TwoCalls.

Lemma both_calls_share_history_witness :
  exists v,
    "gpt-4o" = deployment_name (configured happy_env) /\
    DecisionCall "gpt-4o"
      (system_entry (COORDINATION_REQUEST_SYSTEM_PROMPT happy_env)
       :: (prepare_entry <$> [])
       ++ [prepare_entry (plain USER "Create a new account for Jane")])
      ∈ happy_trace /\
    [system_entry "Answer the user";
     <["content" :=
         VStr (augmented_prompt "Account created"
                 "Create a new account for Jane")]>
       (prepare_entry (plain USER "Create a new account for Jane"))]
    = system_entry (FINAL_RESPONSE_SYSTEM_PROMPT happy_env)
      :: (prepare_entry <$> [])
      ++ [<["content" := VStr v]>
            (prepare_entry (plain USER "Create a new account for Jane"))].
Proof.
  apply (both_calls_share_history happy_env (configured happy_env) jane []
           happy_trace (Ok (final_message "Hello" account_created))
           "gpt-4o" _ [] (plain USER "Create a new account for Jane")).
  - reflexivity.
  - unfold happy_trace. rewrite !elem_of_app. do 4 right.
    apply list_elem_of_here.
  - reflexivity.
Defined.
